(** * FitnessTracker (exam1.py): a shallow embedding and its specification

    The program keeps an in-memory table of logged activities and one table
    of readings per health metric, and derives a weekly summary from the
    activity table.  The embedding follows [exam1.py] statement by statement:

    - a pandas [DataFrame] is the list of its rows, in index order;
      [pd.concat([a, b], ignore_index=True)] is list append;
    - the [health_metrics] dict is a [gmap string _];
    - Python numbers are exact rationals [Q] (rounding of binary floating
      point is not modelled);
    - [datetime.date.today()] is an argument [today] of the logging methods;
    - a pandas [Timestamp] of a date is the day ordinal of that date (the
      range limits of [Timestamp] are not modelled);
    - [print] appends an event to [stdout], carrying the values the printed
      line is formatted from; exceptions are values of [pyexn];
    - the methods run in the monad [Py] over the tracker and [stdout]. *)

From Stdlib Require Import ZArith QArith String Ascii Lia Sorted.
From stdpp Require Import base option list gmap strings.

(** ** Calendar: the part of Python's [datetime.date] the program uses *)

Module Calendar.
Local Open Scope Z_scope.

Record date := mkdate { year : Z; month : Z; day : Z }.

Definition is_leap (y : Z) : bool :=
  (y mod 4 =? 0) && (negb (y mod 100 =? 0) || (y mod 400 =? 0)).

Definition days_in_month (y m : Z) : Z :=
  match m with
  | 1 | 3 | 5 | 7 | 8 | 10 | 12 => 31
  | 4 | 6 | 9 | 11 => 30
  | 2 => if is_leap y then 29 else 28
  | _ => 0
  end.

(** A [datetime.date] object always satisfies this (MINYEAR = 1,
    MAXYEAR = 9999). *)
Definition valid_date (d : date) : bool :=
  (1 <=? year d) && (year d <=? 9999) &&
  (1 <=? month d) && (month d <=? 12) &&
  (1 <=? day d) && (day d <=? days_in_month (year d) (month d)).

Definition days_before_year (y : Z) : Z :=
  let y' := y - 1 in y' * 365 + y' / 4 - y' / 100 + y' / 400.

Definition days_before_month (y m : Z) : Z :=
  match m with
  | 1 => 0 | 2 => 31 | 3 => 59 | 4 => 90 | 5 => 120 | 6 => 151
  | 7 => 181 | 8 => 212 | 9 => 243 | 10 => 273 | 11 => 304 | 12 => 334
  | _ => -1
  end + (if (2 <? m) && is_leap y then 1 else 0).

(** [date.toordinal()]: 0001-01-01 is day 1. *)
Definition toordinal (d : date) : Z :=
  days_before_year (year d) + days_before_month (year d) (month d) + day d.

(** Weekday of a day ordinal, Monday = 0 ... Sunday = 6. *)
Definition weekday (ordinal : Z) : Z := (ordinal + 6) mod 7.

Definition ascii_of_digit (k : Z) : ascii := ascii_of_N (Z.to_N (48 + k)).

Definition digit_of_ascii (c : ascii) : option Z :=
  let n := Z.of_N (N_of_ascii c) in
  if (48 <=? n) && (n <=? 57) then Some (n - 48) else None.

Definition pad2 (n : Z) : string :=
  String (ascii_of_digit (n / 10)) (String (ascii_of_digit (n mod 10)) "").

Definition pad4 (n : Z) : string :=
  String (ascii_of_digit (n / 1000))
    (String (ascii_of_digit (n / 100 mod 10))
       (String (ascii_of_digit (n / 10 mod 10))
          (String (ascii_of_digit (n mod 10)) ""))).

(** [d.strftime("%Y-%m-%d")], with the year written on four digits. *)
Definition strftime (d : date) : string :=
  (pad4 (year d) ++ "-" ++ pad2 (month d) ++ "-" ++ pad2 (day d))%string.

(** Reading back a string of the shape [YYYY-MM-DD]. *)
Definition strptime (s : string) : option date :=
  match s with
  | String y1 (String y2 (String y3 (String y4 (String "-"
      (String m1 (String m2 (String "-" (String d1 (String d2 ""))))))))) =>
      y1 ← digit_of_ascii y1; y2 ← digit_of_ascii y2;
      y3 ← digit_of_ascii y3; y4 ← digit_of_ascii y4;
      m1 ← digit_of_ascii m1; m2 ← digit_of_ascii m2;
      d1 ← digit_of_ascii d1; d2 ← digit_of_ascii d2;
      let d := mkdate (1000 * y1 + 100 * y2 + 10 * y3 + y4)
                      (10 * m1 + m2) (10 * d1 + d2) in
      if valid_date d then Some d else None
  | _ => None
  end.

End Calendar.

(** ** Values, exceptions and the execution monad *)

Inductive pyexn :=
| KeyError (key : string)
| ValueError (arg : string)
| TypeError.

Inductive result (A : Type) :=
| Ok (a : A)
| Raise (e : pyexn).
Arguments Ok {A} a.
Arguments Raise {A} e.

(** A cell of a [Date] column: the text written by [strftime], or a pandas
    [Timestamp] at midnight, kept as the day ordinal of its date. *)
Inductive date_cell :=
| DateStr (s : string)
| DateTs (t : Z).

(** A numpy float result: a number or [nan]. *)
Inductive np_float :=
| Finite (q : Q)
| NaN.

(** ** The pandas and numpy operations the tracker calls *)

Module Pandas.

(** [pd.concat([a, b], ignore_index=True)] on frames with the same columns. *)
Definition concat {A : Type} (a b : list A) : list A := a ++ b.

(** [pd.to_datetime] on one cell.  Timestamps are kept; a string is parsed
    in the [%Y-%m-%d] shape (the only one this program writes), and any
    other string is rejected with [ValueError]. *)
Definition to_datetime_cell (c : date_cell) : result Z :=
  match c with
  | DateTs t => Ok t
  | DateStr s =>
      match Calendar.strptime s with
      | Some d => Ok (Calendar.toordinal d)
      | None => Raise (ValueError s)
      end
  end.

(** [pd.to_datetime] on a column: all cells converted, or the first error. *)
Fixpoint to_datetime (col : list date_cell) : result (list Z) :=
  match col with
  | [] => Ok []
  | c :: col' =>
      match to_datetime_cell c with
      | Raise e => Raise e
      | Ok t =>
          match to_datetime col' with
          | Raise e => Raise e
          | Ok ts => Ok (t :: ts)
          end
      end
  end.

(** The index of a frame must hold timestamps for [resample] to accept it
    ("Only valid with DatetimeIndex"). *)
Fixpoint datetime_index (col : list date_cell) : result (list Z) :=
  match col with
  | [] => Ok []
  | DateStr _ :: _ => Raise TypeError
  | DateTs t :: col' =>
      match datetime_index col' with
      | Raise e => Raise e
      | Ok ts => Ok (t :: ts)
      end
  end.

(** One row of the resampled frame: the bin label and the three sums. *)
Record week_row := mk_week_row {
  WeekEnd : Z;
  SumDurationMin : Q;
  SumCaloriesBurned : Q;
  SumDistanceKM : Q
}.

(** Frequency ['W'] is weekly anchored on Sunday; bins are closed on the
    right and labelled by their right edge: the label of a timestamp is the
    first Sunday on or after it. *)
Definition week_end (t : Z) : Z := (t + (6 - Calendar.weekday t))%Z.

Definition list_min (t0 : Z) (ts : list Z) : Z := foldr Z.min t0 ts.
Definition list_max (t0 : Z) (ts : list Z) : Z := foldr Z.max t0 ts.

(** The labels of the bins: every Sunday from the bin of the earliest
    timestamp to the bin of the latest one. *)
Definition bin_labels (first last : Z) : list Z :=
  (λ i : nat, (first + 7 * Z.of_nat i)%Z) <$> seq 0 (Z.to_nat ((last - first) / 7 + 1)).

Definition empty_bin (label : Z) : week_row := mk_week_row label 0 0 0.

Definition bin_index (first t : Z) : nat := Z.to_nat ((week_end t - first) / 7).

(** Adding the three aggregated columns of one row to its bin. *)
Definition accumulate (v : Q * Q * Q) (b : week_row) : week_row :=
  let '(duration, calories, distance) := v in
  mk_week_row (WeekEnd b)
              (SumDurationMin b + duration)
              (SumCaloriesBurned b + calories)
              (SumDistanceKM b + distance).

Definition add_to_bin (first : Z) (bins : list week_row) (row : Z * (Q * Q * Q))
  : list week_row :=
  alter (accumulate row.2) (bin_index first row.1) bins.

(** [frame.resample('W').agg({... : 'sum'})] on rows (timestamp, values):
    an empty frame gives an empty result; otherwise the bins span the
    timestamps and every row is added to the bin of its week. *)
Definition resample_W_sum (rows : list (Z * (Q * Q * Q))) : list week_row :=
  match rows with
  | [] => []
  | (t0, _) :: _ =>
      let first := week_end (list_min t0 rows.*1) in
      let last := week_end (list_max t0 rows.*1) in
      foldl (add_to_bin first) (empty_bin <$> bin_labels first last) rows
  end.

(** [np.sum] and [np.mean] of a one-dimensional array. *)
Definition np_sum (a : list Q) : Q := foldl Qplus 0%Q a.

Definition np_mean (a : list Q) : np_float :=
  let rcount := length a in
  let ret := np_sum a in
  match rcount with
  | O => NaN
  | S _ => Finite (ret / inject_Z (Z.of_nat rcount))
  end.

End Pandas.

(** ** The tracker's state *)

(** A row of [self.activities]. *)
Record activity := mk_activity {
  Date : date_cell;
  ActivityType : string;
  DurationMin : Q;
  CaloriesBurned : Q;
  DistanceKM : Q
}.

(** A row of a health metric's frame (columns [Date] and [Value]). *)
Record reading := mk_reading {
  ReadingDate : date_cell;
  Value : Q
}.

Record FitnessTracker := mk_tracker {
  activities : list activity;
  health_metrics : gmap string (list reading)
}.

(** What the methods print. *)
Inductive output :=
| ActivityLogged (activity_type : string) (duration_min : Q)
| MetricLogged (metric_name : string) (value : Q)
| SummaryHeader
| SummaryTable (weekly_summary : list Pandas.week_row)
| AverageDuration (average_duration_all_time : np_float).

Record world := mk_world {
  self : FitnessTracker;
  stdout : list output
}.

(** Computations over the tracker and the output, which may raise; the
    state reached when an exception is raised is kept. *)
Definition Py (A : Type) : Type := world → result A * world.

#[global] Instance Py_ret : MRet Py := λ A a w, (Ok a, w).

#[global] Instance Py_bind : MBind Py := λ A B f m w,
  match m w with
  | (Ok a, w') => f a w'
  | (Raise e, w') => (Raise e, w')
  end.

Definition raise {A : Type} (e : pyexn) : Py A := λ w, (Raise e, w).

Definition lift {A : Type} (r : result A) : Py A := λ w, (r, w).

Definition get_activities : Py (list activity) :=
  λ w, (Ok (activities (self w)), w).

Definition set_activities (df : list activity) : Py unit :=
  λ w, (Ok (), mk_world (mk_tracker df (health_metrics (self w))) (stdout w)).

Definition get_health_metrics : Py (gmap string (list reading)) :=
  λ w, (Ok (health_metrics (self w)), w).

Definition set_health_metrics (d : gmap string (list reading)) : Py unit :=
  λ w, (Ok (), mk_world (mk_tracker (activities (self w)) d) (stdout w)).

Definition print (o : output) : Py unit :=
  λ w, (Ok (), mk_world (self w) (stdout w ++ [o])).

(** [k in d] and [d[k]] on a dict. *)
Definition dict_contains {V : Type} (d : gmap string V) (k : string) : bool :=
  bool_decide (is_Some (d !! k)).

Definition dict_getitem {V : Type} (d : gmap string V) (k : string) : Py V :=
  match d !! k with
  | Some v => mret v
  | None => raise (KeyError k)
  end.

(** [df['Date'] = col]: the cells of the column replaced row by row. *)
Definition set_Date (r : activity) (t : Z) : activity :=
  mk_activity (DateTs t) (ActivityType r) (DurationMin r) (CaloriesBurned r) (DistanceKM r).

Definition assign_Date (df : list activity) (col : list Z) : list activity :=
  zip_with set_Date df col.

(** ** The methods of [FitnessTracker] *)

(** [__init__] *)
Definition init : FitnessTracker := mk_tracker [] ∅.

(** A call that leaves [distance_km] out passes its default, 0. *)
Definition log_activity (today : Calendar.date) (activity_type : string)
    (duration_min distance_km : Q) : Py unit :=
  let date := Calendar.strftime today in
  let calories :=
    if String.eqb activity_type "Running" then (duration_min * 10)%Q
    else if String.eqb activity_type "Cycling" then (duration_min * 7)%Q
    else (duration_min * 5)%Q in
  let new_activity :=
    mk_activity (DateStr date) activity_type duration_min calories distance_km in
  df ← get_activities;
  set_activities (Pandas.concat df [new_activity]);;
  print (ActivityLogged activity_type duration_min).

Definition log_health_metric (today : Calendar.date) (metric_name : string)
    (value : Q) : Py unit :=
  let date := Calendar.strftime today in
  d ← get_health_metrics;
  (if negb (dict_contains d metric_name)
   then set_health_metrics (<[metric_name := []]> d)
   else mret ());;
  let new_metric := mk_reading (DateStr date) value in
  d ← get_health_metrics;
  df ← dict_getitem d metric_name;
  set_health_metrics (<[metric_name := Pandas.concat df [new_metric]]> d);;
  print (MetricLogged metric_name value).

Definition aggregated (r : activity) : Q * Q * Q :=
  (DurationMin r, CaloriesBurned r, DistanceKM r).

Definition calculate_weekly_summary : Py (list Pandas.week_row) :=
  df ← get_activities;
  col ← lift (Pandas.to_datetime (Date <$> df));
  set_activities (assign_Date df col);;
  df ← get_activities;
  index ← lift (Pandas.datetime_index (Date <$> df));
  let weekly_summary := Pandas.resample_W_sum (zip index (aggregated <$> df)) in
  df ← get_activities;
  let average_duration_all_time := Pandas.np_mean (DurationMin <$> df) in
  print SummaryHeader;;
  print (SummaryTable weekly_summary);;
  print (AverageDuration average_duration_all_time);;
  mret weekly_summary.

Definition get_activity_data : Py (list activity) :=
  get_activities.

Definition get_health_data (metric_name : string) : Py (list reading) :=
  d ← get_health_metrics;
  mret (default [] (d !! metric_name)).


(** ** Sessions: the commands of the menu that change or read the tracker *)

Inductive command :=
| LogActivity (today : Calendar.date) (activity_type : string)
              (duration_min distance_km : Q)
| LogHealthMetric (today : Calendar.date) (metric_name : string) (value : Q)
| WeeklySummary.

Definition exec (c : command) : Py unit :=
  match c with
  | LogActivity today activity_type duration_min distance_km =>
      log_activity today activity_type duration_min distance_km
  | LogHealthMetric today metric_name value =>
      log_health_metric today metric_name value
  | WeeklySummary => calculate_weekly_summary;; mret ()
  end.

(** The clock hands out real dates. *)
Definition clock_ok (c : command) : bool :=
  match c with
  | LogActivity today _ _ _ => Calendar.valid_date today
  | LogHealthMetric today _ _ => Calendar.valid_date today
  | WeeklySummary => true
  end.

(** The state after a list of commands, one after the other. *)
Definition session (cmds : list command) (w : world) : world :=
  foldl (λ w c, (exec c w).2) w cmds.

Definition logs_metric (metric_name : string) (c : command) : bool :=
  match c with
  | LogHealthMetric _ name _ => bool_decide (name = metric_name)
  | _ => false
  end.

(** ** Vocabulary of the specification *)

(** The rate table of the specification: calories per minute by activity
    type, by exact match. *)
Definition spec_rate (activity_type : string) : Z :=
  if decide (activity_type = "Running") then 10
  else if decide (activity_type = "Cycling") then 7
  else 5.

(** The calendar day a stored cell stands for. *)
Definition cell_day (c : date_cell) : option Z :=
  match Pandas.to_datetime_cell c with
  | Ok t => Some t
  | Raise _ => None
  end.

(** Every stored date is a timestamp or a text that reads back as a date. *)
Definition wf (t : FitnessTracker) : bool :=
  forallb (λ r, bool_decide (is_Some (cell_day (Date r)))) (activities t).

(** The week of a record, named by the Sunday that ends it. *)
Definition week_of (r : activity) : option Z :=
  Pandas.week_end <$> cell_day (Date r).

Definition in_week (label : Z) (r : activity) : Prop :=
  week_of r = Some label.

#[global] Instance in_week_dec label r : Decision (in_week label r).
Proof. unfold in_week. apply _. Defined.

(** The plain sum of one column over the records of one week. *)
Definition week_total (column : activity → Q) (label : Z) (df : list activity) : Q :=
  Pandas.np_sum (column <$> filter (in_week label) df).

Definition week_bucket (df : list activity) (label : Z) : Pandas.week_row :=
  Pandas.mk_week_row label
    (week_total DurationMin label df)
    (week_total CaloriesBurned label df)
    (week_total DistanceKM label df).

(** The weeks that hold at least one record, each once, in order of first
    appearance. *)
Definition distinct_weeks (df : list activity) : list Z :=
  remove_dups (omap week_of df).

(** The sum of a list of numbers, written as in the specification. *)
Definition total (l : list Q) : Q := foldr Qplus 0%Q l.

(** The same record with its date read as a timestamp. *)
Definition normalized (r : activity) : activity :=
  match cell_day (Date r) with
  | Some t => set_Date r t
  | None => r
  end.

(** ** Concrete states *)

Definition fresh : world := mk_world init [].

(** The sample data logged by [main_dashboard] before the menu starts. *)
Definition sample_session (today : Calendar.date) : list command :=
  [ LogActivity today "Running" 30 4.5;
    LogActivity today "Cycling" 60 15;
    LogActivity today "Running" 45 6.0;
    LogHealthMetric today "Weight_KG" 75.2;
    LogHealthMetric today "Weight_KG" 74.8 ].

Definition sample_world : world :=
  session (sample_session (Calendar.mkdate 2026 11 3)) fresh.

(** A tracker used on a Monday and again on the Monday two weeks later. *)
Definition gap_world : world :=
  session [ LogActivity (Calendar.mkdate 2026 11 2) "Running" 30 4.5;
            LogActivity (Calendar.mkdate 2026 11 16) "Cycling" 45 10 ] fresh.

(** ** What a session has logged *)

(** The row a [LogActivity] command asks for, without its date: type,
    duration, calories as [log_activity] derives them, distance. *)
Definition logged_activity (c : command) : option (string * Q * Q * Q) :=
  match c with
  | LogActivity _ activity_type duration_min distance_km =>
      Some (activity_type, duration_min,
            if String.eqb activity_type "Running" then (duration_min * 10)%Q
            else if String.eqb activity_type "Cycling" then (duration_min * 7)%Q
            else (duration_min * 5)%Q,
            distance_km)
  | _ => None
  end.

(** The reading a [LogHealthMetric] command adds under [metric_name]. *)
Definition logged_reading (metric_name : string) (c : command) : option reading :=
  match c with
  | LogHealthMetric today name value =>
      if decide (name = metric_name)
      then Some (mk_reading (DateStr (Calendar.strftime today)) value)
      else None
  | _ => None
  end.

(** The columns of an activity row other than its date. *)
Definition plain_columns (r : activity) : string * Q * Q * Q :=
  (ActivityType r, DurationMin r, CaloriesBurned r, DistanceKM r).

(** ** The plotting functions *)

(** A cell of any column of a frame. *)
Inductive cell :=
| CellDate (c : date_cell)
| CellText (s : string)
| CellNumber (q : Q).

(** What appears on the console, or on screen, while the dashboard runs. *)
Inductive event :=
| Say (line : string)
| Ask (prompt : string)
| Printed (o : output)
| BarPlot (summary : list (string * Q))
| LinePlot (metric : string) (xs : list date_cell) (ys : list cell).

(** What the plotting functions need of a frame: its [Date] column, read
    and assigned, and [df[name]], which is [None] when the frame has no
    column of that name. *)
Class Frame (R : Type) := {
  get_Date : R → date_cell;
  put_Date : R → Z → R;
  get_column : string → option (R → cell)
}.

#[global] Instance activity_frame : Frame activity := {|
  get_Date := Date;
  put_Date := set_Date;
  get_column name :=
    if String.eqb name "Date" then Some (λ r, CellDate (Date r))
    else if String.eqb name "ActivityType" then Some (λ r, CellText (ActivityType r))
    else if String.eqb name "DurationMin" then Some (λ r, CellNumber (DurationMin r))
    else if String.eqb name "CaloriesBurned" then Some (λ r, CellNumber (CaloriesBurned r))
    else if String.eqb name "DistanceKM" then Some (λ r, CellNumber (DistanceKM r))
    else None
|}.

#[global] Instance reading_frame : Frame reading := {|
  get_Date := ReadingDate;
  put_Date r t := mk_reading (DateTs t) (Value r);
  get_column name :=
    if String.eqb name "Date" then Some (λ r, CellDate (ReadingDate r))
    else if String.eqb name "Value" then Some (λ r, CellNumber (Value r))
    else None
|}.

(** [df.empty] *)
Definition is_empty {A : Type} (df : list A) : bool :=
  match df with
  | [] => true
  | _ :: _ => false
  end.

(** [df.groupby(key)[column].sum()]: one group per key, the keys in
    ascending order, each sum taken from 0 in row order. *)
Fixpoint group_add (key : string) (v : Q) (groups : list (string * Q))
  : list (string * Q) :=
  match groups with
  | [] => [(key, (0 + v)%Q)]
  | (k, total_k) :: rest =>
      if String.eqb key k then (k, (total_k + v)%Q) :: rest
      else if String.ltb key k then (key, (0 + v)%Q) :: groups
      else (k, total_k) :: group_add key v rest
  end.

Definition groupby_sum (rows : list (string * Q)) : list (string * Q) :=
  foldl (λ groups row, group_add row.1 row.2 groups) [] rows.

(** [visualize_activity_trends], on the activity table.  The chart is the
    event [BarPlot] with the frame it draws; its fixed title and labels are
    left out. *)
Definition visualize_activity_trends (df : list activity) : list event :=
  if is_empty df then [Say "Not enough data to visualize activity trends."]
  else
    let summary :=
      groupby_sum ((λ r, (ActivityType r, DurationMin r)) <$> df) in
    [BarPlot summary].

(** What a call that assigns to a column of its argument leaves behind: the
    exception it raised if any, what it showed, and the frame it was given
    as the call left it. *)
Record drawn (R : Type) := mk_drawn {
  raised : option pyexn;
  shown : list event;
  frame_after : list R
}.
Arguments mk_drawn {R} raised shown frame_after.
Arguments raised {R} d.
Arguments shown {R} d.
Arguments frame_after {R} d.

Definition default_metric : string := "CaloriesBurned".

(** [visualize_progress_over_time(df, metric)].  The assignment
    [df['Date'] = pd.to_datetime(df['Date'])] is made on the caller's
    frame, before [df[metric]] is looked up. *)
Definition visualize_progress_over_time {R : Type} `{Frame R}
    (df : list R) (metric : string) : drawn R :=
  if is_empty df
  then mk_drawn None
         [Say ("Not enough data to visualize " ++ metric ++ " over time.")%string] df
  else
    match Pandas.to_datetime (get_Date <$> df) with
    | Raise e => mk_drawn (Some e) [] df
    | Ok col =>
        let df := zip_with put_Date df col in
        match get_column metric with
        | None => mk_drawn (Some (KeyError metric)) [] df
        | Some column =>
            mk_drawn None [LinePlot metric (get_Date <$> df) (column <$> df)] df
        end
    end.

(** ** The dashboard *)

(** What the dashboard takes from outside: [float] on a typed line ([None]
    when it raises [ValueError]) and the date of the clock at each reading
    of [datetime.date.today()]. *)
Record environment := mk_env {
  float_of : string → option Q;
  date_today : nat → Calendar.date
}.

Record dash := mk_dash {
  tracker : FitnessTracker;
  console : list event;
  stdin : list string;
  clock_reads : nat
}.

(** How a run ends when it does not return: an exception of the tracker or
    of [float], or [EOFError] from [input] at the end of the input. *)
Inductive crash :=
| Uncaught (e : pyexn)
| EOFError.

Inductive outcome (A : Type) :=
| Done (a : A)
| Crash (c : crash).
Arguments Done {A} a.
Arguments Crash {A} c.

Definition Dash (A : Type) : Type := dash → outcome A * dash.

#[global] Instance Dash_ret : MRet Dash := λ A a s, (Done a, s).

#[global] Instance Dash_bind : MBind Dash := λ A B f m s,
  match m s with
  | (Done a, s') => f a s'
  | (Crash c, s') => (Crash c, s')
  end.

Definition abort {A : Type} (c : crash) : Dash A := λ s, (Crash c, s).

Definition show (es : list event) : Dash unit :=
  λ s, (Done (), mk_dash (tracker s) (console s ++ es) (stdin s) (clock_reads s)).

Definition say (line : string) : Dash unit := show [Say line].

(** [input(prompt)] *)
Definition input (prompt : string) : Dash string :=
  λ s,
    let s' := mk_dash (tracker s) (console s ++ [Ask prompt]) (stdin s) (clock_reads s) in
    match stdin s with
    | [] => (Crash EOFError, s')
    | line :: rest =>
        (Done line, mk_dash (tracker s) (console s ++ [Ask prompt]) rest (clock_reads s))
    end.

(** [float(line)] *)
Definition float (env : environment) (line : string) : Dash Q :=
  match float_of env line with
  | Some q => mret q
  | None => abort (Uncaught (ValueError line))
  end.

(** The date a logging method reads from the clock. *)
Definition today (env : environment) : Dash Calendar.date :=
  λ s, (Done (date_today env (clock_reads s)),
        mk_dash (tracker s) (console s) (stdin s) (S (clock_reads s))).

(** A method of the tracker, called from the dashboard. *)
Definition call {A : Type} (m : Py A) : Dash A :=
  λ s,
    let '(r, w) := m (mk_world (tracker s) []) in
    (match r with
     | Ok a => Done a
     | Raise e => Crash (Uncaught e)
     end,
     mk_dash (self w) (console s ++ (Printed <$> stdout w)) (stdin s) (clock_reads s)).

(** The frame stored under [metric_name], as left by a call that was handed
    that very frame. *)
Definition stored_frame_becomes (metric_name : string) (df : list reading) : Dash unit :=
  λ s,
    (Done (),
     mk_dash (mk_tracker (activities (tracker s))
                (<[metric_name := df]> (health_metrics (tracker s))))
             (console s) (stdin s) (clock_reads s)).

Definition nl : string := String (ascii_of_nat 10) "".

Definition startup (env : environment) : Dash unit :=
  say "Welcome to the Personal Fitness Tracker Dashboard!";;
  say "Logging initial sample data...";;
  d ← today env; call (log_activity d "Running" 30 4.5);;
  d ← today env; call (log_activity d "Cycling" 60 15);;
  d ← today env; call (log_activity d "Running" 45 6.0);;
  d ← today env; call (log_health_metric d "Weight_KG" 75.2);;
  d ← today env; call (log_health_metric d "Weight_KG" 74.8);;
  say "----------------------------------------".

(** One round of the [while True] loop; [false] is [break]. *)
Definition menu (env : environment) : Dash bool :=
  say (nl ++ "Menu Options:");;
  say "1. Log a new activity";;
  say "2. Log a health metric (e.g., Weight)";;
  say "3. View Weekly Activity Summary";;
  say "4. Visualize Activity Type Breakdown";;
  say "5. Visualize Health Metric (Weight) over time";;
  say "6. Exit";;
  choice ← input "Enter your choice (1-6): ";
  if String.eqb choice "1" then
    act_type ← input "Enter Activity Type (e.g., Running, Cycling): ";
    line ← input "Enter Duration in minutes: ";
    duration ← float env line;
    line ← input "Enter Distance in KM (optional, enter 0 if N/A): ";
    distance ← float env line;
    d ← today env;
    call (log_activity d act_type duration distance);;
    mret true
  else if String.eqb choice "2" then
    metric_name ← input "Enter Metric Name (e.g., Weight_KG, restingHR_BPM): ";
    line ← input ("Enter value for " ++ metric_name ++ ": ");
    value ← float env line;
    d ← today env;
    call (log_health_metric d metric_name value);;
    mret true
  else if String.eqb choice "3" then
    call calculate_weekly_summary;;
    mret true
  else if String.eqb choice "4" then
    df ← call get_activity_data;
    show (visualize_activity_trends df);;
    mret true
  else if String.eqb choice "5" then
    weight_data ← call (get_health_data "Weight_KG");
    if negb (is_empty weight_data) then
      let plot := visualize_progress_over_time weight_data "Value" in
      stored_frame_becomes "Weight_KG" (frame_after plot);;
      show (shown plot);;
      match raised plot with
      | Some e => abort (Uncaught e)
      | None => mret true
      end
    else
      say "No weight data logged yet.";;
      mret true
  else if String.eqb choice "6" then
    say "Exiting Fitness Tracker Dashboard. Stay healthy!";;
    mret false
  else
    say "Invalid choice. Please enter a number between 1 and 6.";;
    mret true.

(** The loop, for at most [rounds] rounds: [Some ()] when it was left by
    [break], [None] when the rounds ran out first. *)
Fixpoint menu_loop (env : environment) (rounds : nat) : Dash (option unit) :=
  match rounds with
  | O => mret None
  | S rounds' =>
      continue ← menu env;
      if continue : bool then menu_loop env rounds' else mret (Some ())
  end.

(** [main_dashboard] on the lines typed by the user.  Every round reads at
    least one line, so one round more than there are lines is enough. *)
Definition main_dashboard (env : environment) (lines : list string)
  : outcome (option unit) * dash :=
  (startup env;; menu_loop env (S (length lines))) (mk_dash init [] lines 0).

(** ** Vocabulary for the plots and the dashboard *)

(** The height of the bar of an activity type, if the chart has one. *)
Fixpoint bar_of (activity_type : string) (summary : list (string * Q)) : option Q :=
  match summary with
  | [] => None
  | (k, v) :: rest => if String.eqb activity_type k then Some v else bar_of activity_type rest
  end.

(** The bars stand in strictly ascending order of activity type, so no
    type has two bars. *)
Definition keys_ascending (summary : list (string * Q)) : Prop :=
  StronglySorted (λ g1 g2, String.ltb g1.1 g2.1 = true) summary.

(** The plain sum of the durations of the records of one activity type. *)
Definition type_total (activity_type : string) (df : list activity) : Q :=
  Pandas.np_sum (DurationMin <$> filter (λ r, ActivityType r = activity_type) df).

(** Every date of a frame of readings is a timestamp or a text that reads
    back as a date. *)
Definition wf_readings (df : list reading) : bool :=
  forallb (λ r, bool_decide (is_Some (cell_day (ReadingDate r)))) df.

(** [post] holds of the way [m] ends and of the state it leaves. *)
Definition wp {A : Type} (m : Dash A) (post : outcome A → dash → Prop) (s : dash)
  : Prop :=
  post (m s).1 (m s).2.



(** Every stored date, of an activity or of a reading, is a timestamp or a
    text that reads back as a date. *)
Definition dates_readable (t : FitnessTracker) : Prop :=
  wf t = true ∧
  ∀ name df, health_metrics t !! name = Some df → wf_readings df = true.

(** The exceptions that come from what is typed: the input ends, or a line
    is not a number. *)
Definition from_typing (env : environment) (c : crash) : Prop :=
  c = EOFError ∨ ∃ line, c = Uncaught (ValueError line) ∧ float_of env line = None.


(** A reader of unsigned whole numbers written in decimal, a fragment of
    what [float] accepts, for the examples. *)
Fixpoint whole_number (acc : Z) (s : string) : option Z :=
  match s with
  | EmptyString => Some acc
  | String c s' =>
      match Calendar.digit_of_ascii c with
      | Some k => whole_number (10 * acc + k) s'
      | None => None
      end
  end.

Definition sample_env : environment :=
  mk_env (λ line, match line with
                  | EmptyString => None
                  | _ => inject_Z <$> whole_number 0 line
                  end)
         (λ _, Calendar.mkdate 2026 11 3).

(** * Properties *)

(** ** The calendar: what [strftime] writes reads back as the same date *)

Section calendar_facts.
Import Calendar.
Local Open Scope Z_scope.

Lemma digit_of_ascii_of_digit (k : Z) :
  0 ≤ k ≤ 9 → digit_of_ascii (ascii_of_digit k) = Some k.
Proof.
  intros Hk.
  assert (Hcases : k = 0 ∨ k = 1 ∨ k = 2 ∨ k = 3 ∨ k = 4 ∨
                   k = 5 ∨ k = 6 ∨ k = 7 ∨ k = 8 ∨ k = 9) by lia.
  repeat (destruct Hcases as [-> | Hcases]; [reflexivity |]).
  by subst.
Qed.

Lemma days_in_month_le_31 (y m : Z) : days_in_month y m ≤ 31.
Proof.
  unfold days_in_month.
  repeat (case_match; try lia).
Qed.

Lemma decimal4 (n : Z) :
  1000 * (n / 1000) + 100 * (n / 100 mod 10) + 10 * (n / 10 mod 10) + n mod 10 = n.
Proof. Z.div_mod_to_equations. lia. Qed.

Lemma decimal2 (n : Z) : 10 * (n / 10) + n mod 10 = n.
Proof. Z.div_mod_to_equations. lia. Qed.

Lemma valid_date_bounds (d : date) :
  valid_date d = true →
  1 ≤ year d ≤ 9999 ∧ 1 ≤ month d ≤ 12 ∧ 1 ≤ day d ≤ 31.
Proof.
  unfold valid_date. intros H.
  repeat (apply andb_prop in H as [H ?]).
  pose proof (days_in_month_le_31 (year d) (month d)).
  lia.
Qed.

Lemma strptime_strftime (d : date) :
  valid_date d = true → strptime (strftime d) = Some d.
Proof.
  intros Hvalid.
  destruct (valid_date_bounds d Hvalid) as (Hy & Hm & Hd).
  destruct d as [y m dd]; simpl in *.
  unfold strftime, pad4, pad2, strptime; simpl.
  rewrite !digit_of_ascii_of_digit by (Z.div_mod_to_equations; lia).
  simpl. rewrite decimal4, !decimal2. by rewrite Hvalid.
Qed.

Lemma weekday_range (t : Z) : 0 ≤ weekday t ≤ 6.
Proof. unfold weekday. Z.div_mod_to_equations. lia. Qed.

End calendar_facts.

(** ** Weekly bins *)

Section resample_facts.
Import Pandas.
Local Open Scope Z_scope.

Lemma week_end_multiple (t : Z) : week_end t = 7 * ((t + 6) / 7).
Proof. unfold week_end, Calendar.weekday. Z.div_mod_to_equations. lia. Qed.

Lemma week_end_bounds (t : Z) : t ≤ week_end t < t + 7.
Proof. unfold week_end. pose proof (weekday_range t). lia. Qed.

Lemma week_end_mono (t t' : Z) : t ≤ t' → week_end t ≤ week_end t'.
Proof. intros H. rewrite !week_end_multiple. Z.div_mod_to_equations. lia. Qed.

Lemma list_min_le (t0 : Z) (ts : list Z) :
  list_min t0 ts ≤ t0 ∧ ∀ t, t ∈ ts → list_min t0 ts ≤ t.
Proof.
  induction ts as [|t' ts [IH0 IH]]; simpl.
  - split; [lia | intros t Ht; inversion Ht].
  - split; [lia |]. intros t [-> | Ht]%elem_of_cons; [lia |].
    specialize (IH t Ht). lia.
Qed.

Lemma list_max_ge (t0 : Z) (ts : list Z) :
  t0 ≤ list_max t0 ts ∧ ∀ t, t ∈ ts → t ≤ list_max t0 ts.
Proof.
  induction ts as [|t' ts [IH0 IH]]; simpl.
  - split; [lia | intros t Ht; inversion Ht].
  - split; [lia |]. intros t [-> | Ht]%elem_of_cons; [lia |].
    specialize (IH t Ht). lia.
Qed.

Lemma list_min_elem (t0 : Z) (ts : list Z) : list_min t0 ts ∈ t0 :: ts.
Proof.
  unfold list_min. induction ts as [|t' ts IH]; simpl; [left |].
  destruct (Z.min_spec t' (foldr Z.min t0 ts)) as [[_ ->] | [_ ->]].
  - right; left.
  - apply elem_of_cons in IH as [IH | IH];
      [rewrite IH; left | right; right; exact IH].
Qed.

Lemma list_max_elem (t0 : Z) (ts : list Z) : list_max t0 ts ∈ t0 :: ts.
Proof.
  unfold list_max. induction ts as [|t' ts IH]; simpl; [left |].
  destruct (Z.max_spec t' (foldr Z.max t0 ts)) as [[_ ->] | [_ ->]].
  - apply elem_of_cons in IH as [IH | IH];
      [rewrite IH; left | right; right; exact IH].
  - right; left.
Qed.

Lemma bin_labels_lookup (first last : Z) (i : nat) (label : Z) :
  bin_labels first last !! i = Some label ↔
  label = first + 7 * Z.of_nat i ∧ (i < Z.to_nat ((last - first) / 7 + 1))%nat.
Proof.
  unfold bin_labels. rewrite list_lookup_fmap, fmap_Some. split.
  - intros (j & [-> Hlt]%lookup_seq & ->). simpl. auto.
  - intros [-> Hlt]. exists i. split; [|done].
    apply lookup_seq. simpl. auto.
Qed.

(** Between the first and the last bin, a timestamp falls in bin [i]
    exactly when its week ends on the label of bin [i]. *)
Lemma bin_index_label (first t : Z) (i : nat) :
  first mod 7 = 0 → first ≤ week_end t →
  bin_index first t = i ↔ week_end t = first + 7 * Z.of_nat i.
Proof.
  intros Hfirst Hle. unfold bin_index.
  pose proof (week_end_multiple t) as Ht.
  split; intros H.
  - subst i. rewrite Z2Nat.id by (Z.div_mod_to_equations; lia).
    Z.div_mod_to_equations. lia.
  - rewrite H. replace (first + 7 * Z.of_nat i - first) with (Z.of_nat i * 7) by lia.
    rewrite Z.div_mul by lia. apply Nat2Z.id.
Qed.

Lemma filter_ext_elem {A : Type} (P1 P2 : A → Prop)
    `{!∀ x, Decision (P1 x), !∀ x, Decision (P2 x)} (l : list A) :
  (∀ x, x ∈ l → P1 x ↔ P2 x) → filter P1 l = filter P2 l.
Proof.
  induction l as [|a l IH]; intros Hiff; [done |].
  rewrite !filter_cons.
  rewrite IH by (intros x Hx; apply Hiff; by right).
  apply decide_ext, Hiff. by left.
Qed.

(** Each bin receives, in row order, the rows whose index falls in it. *)
Lemma foldl_add_to_bin_lookup (first : Z) (rows : list (Z * (Q * Q * Q)))
    (bins : list week_row) (i : nat) :
  foldl (add_to_bin first) bins rows !! i =
  (λ b, foldl (λ b v, accumulate v b) b
          (filter (λ row, bin_index first row.1 = i) rows).*2) <$> bins !! i.
Proof.
  revert bins. induction rows as [|row rows IH]; intros bins; simpl.
  - by destruct (bins !! i).
  - rewrite IH. unfold add_to_bin. rewrite filter_cons.
    destruct (decide (bin_index first row.1 = i)) as [-> | Hne].
    + rewrite list_lookup_alter_eq. by destruct (bins !! _).
    + by rewrite list_lookup_alter_ne.
Qed.

Lemma foldl_accumulate (b : week_row) (vs : list (Q * Q * Q)) :
  foldl (λ b v, accumulate v b) b vs =
  mk_week_row (WeekEnd b)
    (foldl Qplus (SumDurationMin b) vs.*1.*1)
    (foldl Qplus (SumCaloriesBurned b) vs.*1.*2)
    (foldl Qplus (SumDistanceKM b) vs.*2).
Proof.
  revert b. induction vs as [|[[duration calories] distance] vs IH]; intros b; simpl.
  - by destruct b.
  - by rewrite IH.
Qed.

End resample_facts.

Section summary_facts.
Import Pandas.
Local Open Scope Z_scope.

(** The resampled frame, bin by bin: the label and, for each column, the
    sum over the rows whose week ends on that label. *)
Lemma resample_W_sum_lookup (t0 : Z) (v0 : Q * Q * Q)
    (rows' : list (Z * (Q * Q * Q))) (i : nat) :
  let rows := (t0, v0) :: rows' in
  resample_W_sum rows !! i =
  (λ label,
     let vs := (filter (λ row, week_end row.1 = label) rows).*2 in
     mk_week_row label (np_sum vs.*1.*1) (np_sum vs.*1.*2) (np_sum vs.*2))
  <$> bin_labels (week_end (list_min t0 rows.*1)) (week_end (list_max t0 rows.*1)) !! i.
Proof.
  intros rows.
  set (first := week_end (list_min t0 rows.*1)).
  set (last := week_end (list_max t0 rows.*1)).
  change (resample_W_sum rows)
    with (foldl (add_to_bin first) (empty_bin <$> bin_labels first last) rows).
  rewrite foldl_add_to_bin_lookup, list_lookup_fmap.
  destruct (bin_labels first last !! i) as [label|] eqn:Hlabel; [|done].
  apply bin_labels_lookup in Hlabel as [-> _]. simpl.
  rewrite foldl_accumulate. simpl. unfold np_sum.
  rewrite (filter_ext_elem _ (λ row, week_end row.1 = first + 7 * Z.of_nat i)); [done |].
  intros row Hrow. apply bin_index_label.
  - unfold first. rewrite week_end_multiple. Z.div_mod_to_equations. lia.
  - apply week_end_mono, list_min_le. by apply list_elem_of_fmap_2.
Qed.

Lemma to_datetime_wf (df : list activity) :
  forallb (λ r, bool_decide (is_Some (cell_day (Date r)))) df = true →
  ∃ ts, to_datetime (Date <$> df) = Ok ts ∧
        Forall2 (λ r t, cell_day (Date r) = Some t) df ts.
Proof.
  induction df as [|r df IH]; cbn [forallb].
  - intros _. exists []. split; [done | constructor].
  - intros [Hr Hdf]%andb_prop. destruct (IH Hdf) as (ts & Hts & Hall).
    apply bool_decide_eq_true in Hr as [t Ht].
    unfold cell_day in Ht.
    destruct (to_datetime_cell (Date r)) as [t' |] eqn:Hcell; [|done].
    exists (t' :: ts). split.
    + rewrite fmap_cons. cbn [to_datetime]. by rewrite Hcell, Hts.
    + constructor; [|done]. unfold cell_day. by rewrite Hcell.
Qed.

Lemma datetime_index_assign (df : list activity) (ts : list Z) :
  length df = length ts →
  datetime_index (Date <$> assign_Date df ts) = Ok ts.
Proof.
  revert ts. induction df as [|r df IH]; intros [|t ts] Hlen; try done.
  simpl in *. rewrite IH by lia. done.
Qed.

Lemma column_assign {B : Type} (column : activity → B) (df : list activity) (ts : list Z) :
  (∀ r t, column (set_Date r t) = column r) →
  length df = length ts →
  column <$> assign_Date df ts = column <$> df.
Proof.
  intros Hcol. revert ts.
  induction df as [|r df IH]; intros [|t ts] Hlen; try done.
  simpl in *. rewrite Hcol. f_equal. apply IH. lia.
Qed.

(** On a well-formed table the method runs to its end: this is its result
    and the state it leaves. *)
Lemma calculate_weekly_summary_run (w : world) (ts : list Z) :
  to_datetime (Date <$> activities (self w)) = Ok ts →
  length (activities (self w)) = length ts →
  let df := activities (self w) in
  let weekly_summary := resample_W_sum (zip ts (aggregated <$> df)) in
  calculate_weekly_summary w =
  (Ok weekly_summary,
   mk_world (mk_tracker (assign_Date df ts) (health_metrics (self w)))
            (stdout w ++ [SummaryHeader; SummaryTable weekly_summary;
                          AverageDuration (np_mean (DurationMin <$> df))])).
Proof.
  intros Hts Hlen df weekly_summary.
  unfold calculate_weekly_summary, mbind, Py_bind, get_activities, lift,
    set_activities, print, mret, Py_ret.
  rewrite Hts. cbn [self activities stdout health_metrics].
  rewrite datetime_index_assign by done.
  rewrite !(column_assign _ (activities (self w)) ts) by done.
  by rewrite <- !app_assoc.
Qed.

Lemma filter_week_rows (df : list activity) (ts : list Z) (label : Z) :
  Forall2 (λ r t, cell_day (Date r) = Some t) df ts →
  (filter (λ row, week_end row.1 = label) (zip ts (aggregated <$> df))).*2 =
  aggregated <$> filter (in_week label) df.
Proof.
  induction 1 as [|r t df ts Hr Hall IH]; [done |].
  rewrite fmap_cons. cbn [zip_with]. rewrite !filter_cons. cbn [fst].
  assert (Hiff : week_end t = label ↔ in_week label r).
  { unfold in_week, week_of. rewrite Hr. simpl. split; congruence. }
  destruct (decide (week_end t = label)), (decide (in_week label r));
    try tauto; rewrite ?fmap_cons; cbn [snd]; by rewrite IH.
Qed.

End summary_facts.

Section bucket_facts.
Import Pandas.
Local Open Scope Z_scope.

Lemma Forall2_elem_l {A B : Type} (P : A → B → Prop) (l : list A) (k : list B) (x : A) :
  Forall2 P l k → x ∈ l → ∃ y, y ∈ k ∧ P x y.
Proof.
  induction 1 as [|a b l k Hab Hall IH]; intros Hx; [inversion Hx |].
  apply elem_of_cons in Hx as [-> | Hx].
  - exists b. split; [left | done].
  - destruct (IH Hx) as (y & Hy & HP). exists y. split; [by right | done].
Qed.

Lemma Forall2_elem_r {A B : Type} (P : A → B → Prop) (l : list A) (k : list B) (y : B) :
  Forall2 P l k → y ∈ k → ∃ x, x ∈ l ∧ P x y.
Proof.
  induction 1 as [|a b l k Hab Hall IH]; intros Hy; [inversion Hy |].
  apply elem_of_cons in Hy as [-> | Hy].
  - exists a. split; [left | done].
  - destruct (IH Hy) as (x & Hx & HP). exists x. split; [by right | done].
Qed.

(** The summary of a non-empty table: one bucket per label, each holding
    the totals of its week. *)
Lemma resample_week_buckets (r0 : activity) (df' : list activity) (t0 : Z) (ts' : list Z) :
  Forall2 (λ r t, cell_day (Date r) = Some t) (r0 :: df') (t0 :: ts') →
  resample_W_sum (zip (t0 :: ts') (aggregated <$> r0 :: df')) =
  week_bucket (r0 :: df') <$>
    bin_labels (week_end (list_min t0 (t0 :: ts'))) (week_end (list_max t0 (t0 :: ts'))).
Proof.
  intros Hall. pose proof (Forall2_length _ _ _ Hall) as Hlen.
  apply list_eq. intros i.
  change (zip (t0 :: ts') (aggregated <$> r0 :: df'))
    with ((t0, aggregated r0) :: zip ts' (aggregated <$> df')).
  rewrite resample_W_sum_lookup. cbv zeta.
  change ((t0, aggregated r0) :: zip ts' (aggregated <$> df'))
    with (zip (t0 :: ts') (aggregated <$> r0 :: df')).
  rewrite fst_zip by (rewrite length_fmap; lia).
  rewrite list_lookup_fmap.
  destruct (bin_labels _ _ !! i) as [label|]; [|done].
  refine (f_equal Some _). cbv beta zeta.
  rewrite (filter_week_rows (r0 :: df') (t0 :: ts') label Hall).
  unfold week_bucket, week_total.
  by rewrite <- !list_fmap_compose.
Qed.

Lemma weekday_label (t : Z) (i : nat) :
  Calendar.weekday (week_end t + 7 * Z.of_nat i) = 6.
Proof.
  rewrite week_end_multiple. unfold Calendar.weekday.
  Z.div_mod_to_equations. lia.
Qed.

Lemma bin_labels_length (first last : Z) :
  length (bin_labels first last) = Z.to_nat ((last - first) / 7 + 1).
Proof. unfold bin_labels. by rewrite length_fmap, length_seq. Qed.

(** The week of any timestamp between the earliest and the latest one has
    a label. *)
Lemma bin_labels_cover (tmin tmax t : Z) :
  tmin ≤ t ≤ tmax →
  ∃ i, bin_labels (week_end tmin) (week_end tmax) !! i = Some (week_end t).
Proof.
  intros Ht.
  pose proof (week_end_mono tmin t) as Hlo.
  pose proof (week_end_mono t tmax) as Hhi.
  pose proof (week_end_multiple tmin) as Hmin.
  pose proof (week_end_multiple tmax) as Hmax.
  pose proof (week_end_multiple t) as Hmid.
  exists (Z.to_nat ((week_end t - week_end tmin) / 7)).
  apply bin_labels_lookup. split.
  - rewrite Z2Nat.id by (Z.div_mod_to_equations; lia).
    Z.div_mod_to_equations. lia.
  - apply Z2Nat.inj_lt; Z.div_mod_to_equations; lia.
Qed.

Lemma bin_labels_head (tmin tmax : Z) :
  tmin ≤ tmax →
  head (bin_labels (week_end tmin) (week_end tmax)) = Some (week_end tmin).
Proof.
  intros Hle. rewrite head_lookup. apply bin_labels_lookup.
  pose proof (week_end_mono tmin tmax Hle).
  split; [lia |].
  change 0%nat with (Z.to_nat 0). apply Z2Nat.inj_lt; Z.div_mod_to_equations; lia.
Qed.

Lemma bin_labels_last (tmin tmax : Z) :
  tmin ≤ tmax →
  last (bin_labels (week_end tmin) (week_end tmax)) = Some (week_end tmax).
Proof.
  intros Hle. rewrite last_lookup, bin_labels_length. apply bin_labels_lookup.
  pose proof (week_end_mono tmin tmax Hle).
  pose proof (week_end_multiple tmin) as Hmin.
  pose proof (week_end_multiple tmax) as Hmax.
  assert (0 ≤ (week_end tmax - week_end tmin) / 7) by (Z.div_mod_to_equations; lia).
  split.
  - rewrite Z2Nat.inj_add, Nat.add_1_r by lia. simpl.
    rewrite Z2Nat.id by lia. Z.div_mod_to_equations. lia.
  - rewrite Z2Nat.inj_add by lia. simpl. lia.
Qed.

End bucket_facts.

(** ** The logging methods *)

Section logging_facts.
Import Calendar.

(** The record built by [log_activity]. *)
Lemma log_activity_run (today : date) (activity_type : string)
    (duration_min distance_km : Q) (w : world) :
  log_activity today activity_type duration_min distance_km w =
  (Ok (),
   mk_world
     (mk_tracker
        (activities (self w) ++
         [mk_activity (DateStr (strftime today)) activity_type duration_min
            (if String.eqb activity_type "Running" then duration_min * 10
             else if String.eqb activity_type "Cycling" then duration_min * 7
             else duration_min * 5)%Q
            distance_km])
        (health_metrics (self w)))
     (stdout w ++ [ActivityLogged activity_type duration_min])).
Proof. reflexivity. Qed.

(** [log_health_metric] never raises: the key it reads was just ensured. *)
Lemma log_health_metric_run (today : date) (metric_name : string) (value : Q)
    (w : world) :
  log_health_metric today metric_name value w =
  (Ok (),
   mk_world
     (mk_tracker
        (activities (self w))
        (<[metric_name :=
             default [] (health_metrics (self w) !! metric_name) ++
             [mk_reading (DateStr (strftime today)) value]]>
           (health_metrics (self w))))
     (stdout w ++ [MetricLogged metric_name value])).
Proof.
  unfold log_health_metric, mbind, Py_bind, get_health_metrics,
    set_health_metrics, dict_getitem, dict_contains, print, mret, Py_ret, raise,
    Pandas.concat.
  destruct (health_metrics (self w) !! metric_name) as [df|] eqn:Hlookup.
  - rewrite bool_decide_eq_true_2 by eauto.
    cbn [negb self health_metrics activities stdout]. by rewrite Hlookup.
  - rewrite bool_decide_eq_false_2 by (intros [? ?]; done).
    cbn [negb self health_metrics activities stdout].
    by rewrite lookup_insert_eq, insert_insert_eq.
Qed.

Lemma rate_table (activity_type : string) (duration_min : Q) :
  (if String.eqb activity_type "Running" then duration_min * 10
   else if String.eqb activity_type "Cycling" then duration_min * 7
   else duration_min * 5)%Q
  = (duration_min * inject_Z (spec_rate activity_type))%Q.
Proof.
  unfold spec_rate.
  destruct (String.eqb_spec activity_type "Running") as [-> | Hrun]; [done |].
  rewrite decide_False by done.
  destruct (String.eqb_spec activity_type "Cycling") as [-> | Hcyc]; [done |].
  by rewrite decide_False by done.
Qed.

Lemma cell_day_strftime (today : date) :
  valid_date today = true →
  cell_day (DateStr (strftime today)) = Some (toordinal today).
Proof.
  intros Hvalid. unfold cell_day, Pandas.to_datetime_cell.
  by rewrite strptime_strftime.
Qed.

End logging_facts.

(** ** Sessions keep the table well formed *)

Section session_facts.
Import Calendar Pandas.

Lemma wf_assign_Date (df : list activity) (ts : list Z) (d : gmap string (list reading)) :
  wf (mk_tracker (assign_Date df ts) d) = true.
Proof.
  unfold wf. cbn [activities]. revert ts.
  induction df as [|r df IH]; intros [|t ts]; try done.
  cbn [assign_Date zip_with forallb]. apply andb_true_intro. split.
  - apply bool_decide_eq_true. by exists t.
  - apply IH.
Qed.

(** Whatever the table holds, the summary leaves the health metrics alone. *)
Lemma calculate_weekly_summary_health_metrics (w : world) :
  health_metrics (self (calculate_weekly_summary w).2) = health_metrics (self w).
Proof.
  unfold calculate_weekly_summary, mbind, Py_bind, get_activities, lift,
    set_activities, print, mret, Py_ret.
  destruct (to_datetime _) as [ts|]; [|done].
  cbn [self activities stdout health_metrics].
  by destruct (datetime_index _).
Qed.

Lemma exec_wf (c : command) (w : world) :
  clock_ok c = true → wf (self w) = true → wf (self (exec c w).2) = true.
Proof.
  intros Hclock Hwf. destruct c as [today ty dur dist | today name value |].
  - cbn [exec]. rewrite log_activity_run. unfold wf in *. cbn [snd self activities].
    rewrite forallb_app, Hwf. cbn [forallb Date].
    rewrite (cell_day_strftime today Hclock).
    by rewrite bool_decide_eq_true_2 by eauto.
  - cbn [exec]. by rewrite log_health_metric_run.
  - destruct (to_datetime_wf _ Hwf) as (ts & Hts & Hall).
    unfold exec, mbind, Py_bind.
    rewrite (calculate_weekly_summary_run w ts Hts (Forall2_length _ _ _ Hall)).
    apply wf_assign_Date.
Qed.

(** Every state a session reaches from a well-formed one is well formed. *)
Lemma session_wf (cmds : list command) (w : world) :
  forallb clock_ok cmds = true → wf (self w) = true →
  wf (self (session cmds w)) = true.
Proof.
  revert w. induction cmds as [|c cmds IH]; intros w Hclock Hwf; [done |].
  apply andb_prop in Hclock as [Hc Hcmds].
  apply (IH _ Hcmds), exec_wf; done.
Qed.

(** A metric that no command of the session logs keeps the entry it had. *)
Lemma session_metric_untouched (metric_name : string) (cmds : list command) (w : world) :
  forallb (λ c, negb (logs_metric metric_name c)) cmds = true →
  health_metrics (self (session cmds w)) !! metric_name =
  health_metrics (self w) !! metric_name.
Proof.
  revert w. induction cmds as [|c cmds IH]; intros w Hcmds; [done |].
  apply andb_prop in Hcmds as [Hc Hcmds].
  cbn [session foldl]. fold (session cmds (exec c w).2). rewrite (IH _ Hcmds).
  destruct c as [today ty dur dist | today name value |].
  - cbn [exec]. by rewrite log_activity_run.
  - cbn [exec]. rewrite log_health_metric_run. cbn [snd self health_metrics].
    apply lookup_insert_ne. intros ->.
    cbn [logs_metric] in Hc. by rewrite bool_decide_eq_true_2 in Hc.
  - unfold exec, mbind, Py_bind, mret, Py_ret.
    pose proof (calculate_weekly_summary_health_metrics w) as Hframe.
    destruct (calculate_weekly_summary w) as [[ws|e] w']; cbn [snd] in *;
      by rewrite Hframe.
Qed.

End session_facts.

(** ** The mean and the stored table after a summary *)

Section mean_facts.
Import Pandas.

Lemma foldl_Qplus_total (a : Q) (l : list Q) :
  (foldl Qplus a l == a + total l)%Q.
Proof.
  revert a. induction l as [|x l IH]; intros a; simpl.
  - symmetry. apply Qplus_0_r.
  - rewrite IH. symmetry. apply Qplus_assoc.
Qed.

(** [np.sum] adds from the left; the result is the sum all the same. *)
Lemma np_sum_total (l : list Q) : (np_sum l == total l)%Q.
Proof. unfold np_sum. rewrite foldl_Qplus_total. apply Qplus_0_l. Qed.

Lemma np_mean_nonempty (l : list Q) :
  (0 < length l)%nat →
  ∃ m, np_mean l = Finite m ∧
       (m * inject_Z (Z.of_nat (length l)) == total l)%Q.
Proof.
  intros Hlen. destruct l as [|x l]; [simpl in Hlen; lia |].
  eexists. split; [reflexivity |].
  rewrite Qmult_comm, Qmult_div_r.
  - apply np_sum_total.
  - unfold Qeq. simpl. lia.
Qed.

Lemma assign_Date_normalized (df : list activity) (ts : list Z) :
  Forall2 (λ r t, cell_day (Date r) = Some t) df ts →
  assign_Date df ts = normalized <$> df.
Proof.
  induction 1 as [|r t df ts Hr Hall IH]; [done |].
  rewrite fmap_cons, <- IH. unfold normalized. by rewrite Hr.
Qed.

End mean_facts.

(** * The claims *)

Section logging_claims.
Import Calendar.

(** C1. For every activity type and duration, the [CaloriesBurned] stored
    by [log_activity] is the duration times the rate of the specification's
    table (10 for "Running", 7 for "Cycling", 5 for any other string, by
    exact match); in particular ("Running", 30, 4.5) stores 300,
    ("Cycling", 60, 15) stores 420 and ("Yoga", 20, 0) stores 100. *)
Theorem log_activity_calories (today : date) (activity_type : string)
    (duration_min distance_km : Q) (w : world) :
  (∃ w', log_activity today activity_type duration_min distance_km w = (Ok (), w') ∧
         CaloriesBurned <$> last (activities (self w')) =
         Some (duration_min * inject_Z (spec_rate activity_type))%Q) ∧
  CaloriesBurned <$> last (activities (self (log_activity today "Running" 30 4.5 w).2))
    = Some 300%Q ∧
  CaloriesBurned <$> last (activities (self (log_activity today "Cycling" 60 15 w).2))
    = Some 420%Q ∧
  CaloriesBurned <$> last (activities (self (log_activity today "Yoga" 20 0 w).2))
    = Some 100%Q.
Proof.
  split; [|rewrite !log_activity_run; cbn [snd self activities];
           by rewrite !last_snoc].
  eexists. split; [apply log_activity_run |].
  cbn [self activities]. rewrite last_snoc. cbn [fmap option_fmap option_map CaloriesBurned].
  by rewrite rate_table.
Qed.

(** C5. [log_activity] followed by [get_activity_data] returns the previous
    table extended by exactly one row, which carries the arguments, the
    derived calories and today's date; the earlier rows are as they were. *)
Theorem log_activity_appends (today : date) (activity_type : string)
    (duration_min distance_km : Q) (w : world) :
  let new_activity :=
    mk_activity (DateStr (strftime today)) activity_type duration_min
      (duration_min * inject_Z (spec_rate activity_type))%Q distance_km in
  ∃ df w',
    (log_activity today activity_type duration_min distance_km;; get_activity_data) w
      = (Ok df, w') ∧
    df = activities (self w) ++ [new_activity] ∧
    length df = S (length (activities (self w))) ∧
    last df = Some new_activity ∧
    ∀ i r, activities (self w) !! i = Some r → df !! i = Some r.
Proof.
  intros new_activity.
  eexists _, _. split.
  { unfold mbind, Py_bind. rewrite log_activity_run. reflexivity. }
  cbn [self activities]. rewrite rate_table. fold new_activity.
  split; [done |]. split; [rewrite length_app; simpl; lia |].
  split; [apply last_snoc |].
  intros i r Hi. by apply lookup_app_l_Some.
Qed.

(** C6. For every metric name, [log_health_metric] on a name with no
    collection creates one new sequence holding exactly the new reading;
    on a name that has a collection it appends the reading at the end of
    that sequence, keeping what was there; the sequences of the other names
    are untouched. *)
Theorem log_health_metric_appends (today : date) (metric_name : string)
    (value : Q) (w : world) :
  let new_metric := mk_reading (DateStr (strftime today)) value in
  let d := health_metrics (self w) in
  ∃ w',
    log_health_metric today metric_name value w = (Ok (), w') ∧
    let d' := health_metrics (self w') in
    match d !! metric_name with
    | None => d' !! metric_name = Some [new_metric] ∧ size d' = S (size d)
    | Some df => d' !! metric_name = Some (df ++ [new_metric]) ∧ size d' = size d
    end ∧
    ∀ other, other ≠ metric_name → d' !! other = d !! other.
Proof.
  intros new_metric d. eexists. split; [apply log_health_metric_run |].
  cbn [self health_metrics]. fold d. split.
  - destruct (d !! metric_name) as [df|] eqn:Hlookup; cbn [default].
    + split; [apply lookup_insert_eq |].
      apply map_size_insert_Some. eauto.
    + split; [apply lookup_insert_eq |]. by apply map_size_insert_None.
  - intros other Hother. by apply lookup_insert_ne.
Qed.

(** C9. The two logging operations do not touch each other's data:
    [log_health_metric] leaves the activity table unchanged, and
    [log_activity] leaves the sequence of every metric name unchanged. *)
Theorem logging_is_independent (today : date) (metric_name activity_type : string)
    (value duration_min distance_km : Q) (w : world) :
  activities (self (log_health_metric today metric_name value w).2)
    = activities (self w) ∧
  health_metrics (self (log_activity today activity_type duration_min distance_km w).2)
    = health_metrics (self w) ∧
  ∀ name,
    (get_health_data name
       (log_activity today activity_type duration_min distance_km w).2).1
    = (get_health_data name w).1.
Proof.
  rewrite log_health_metric_run, log_activity_run. done.
Qed.

(** C10. [log_health_metric] immediately followed by [get_health_data] on
    the same name returns a non-empty sequence whose last reading has the
    logged value and today's date. *)
Theorem log_health_metric_then_get (today : date) (metric_name : string)
    (value : Q) (w : world) :
  ∃ df w',
    (log_health_metric today metric_name value;; get_health_data metric_name) w
      = (Ok df, w') ∧
    df ≠ [] ∧
    last df = Some (mk_reading (DateStr (strftime today)) value).
Proof.
  eexists _, _. split.
  { unfold mbind at 1. unfold Py_bind. rewrite log_health_metric_run.
    unfold get_health_data, mbind, Py_bind, get_health_metrics, mret, Py_ret.
    cbn [self health_metrics]. rewrite lookup_insert_eq. reflexivity. }
  cbn [default]. split; [|apply last_snoc].
  intros Hnil. by apply app_eq_nil in Hnil as [_ ?].
Qed.

End logging_claims.

Section reading_claims.
Import Calendar.

(** C7. For every metric name that no command of the session has passed to
    [log_health_metric], [get_health_data] returns an empty sequence and
    does not raise. *)
Theorem get_health_data_never_logged (cmds : list command) (metric_name : string) :
  forallb (λ c, negb (logs_metric metric_name c)) cmds = true →
  get_health_data metric_name (session cmds fresh) = (Ok [], session cmds fresh).
Proof.
  intros Hnever.
  unfold get_health_data, mbind, Py_bind, get_health_metrics, mret, Py_ret.
  by rewrite (session_metric_untouched _ _ _ Hnever).
Qed.

Lemma get_health_data_never_logged_witness :
  forallb (λ c, negb (logs_metric "restingHR_BPM" c))
    (sample_session (mkdate 2026 11 3)) = true ∧
  get_health_data "restingHR_BPM" sample_world = (Ok [], sample_world).
Proof.
  split; [reflexivity |].
  apply (get_health_data_never_logged (sample_session (mkdate 2026 11 3)) "restingHR_BPM").
  reflexivity.
Defined.

End reading_claims.

Section summary_claims.
Import Calendar Pandas.
Local Open Scope Z_scope.

(** C2, as stated, fails: the summary has a bucket for every calendar week
    between the first and the last record, also for a week without any
    record.  Two records logged two weeks apart fall in two distinct weeks,
    and the summary has three buckets, the middle one with zero totals. *)
Lemma weekly_summary_gap_week :
  (calculate_weekly_summary gap_world).1 =
    Ok [ mk_week_row 739928 30 300 4.5;
         mk_week_row 739935 0 0 0;
         mk_week_row 739942 45 315 10 ] ∧
  distinct_weeks (activities (self gap_world)) = [739928; 739942] ∧
  ¬ ∃ r, r ∈ activities (self gap_world) ∧ week_of r = Some 739935.
Proof.
  split; [vm_compute; reflexivity |]. split; [vm_compute; reflexivity |].
  intros (r & Hr & Hweek).
  change (activities (self gap_world)) with
    [ mk_activity (DateStr "2026-11-02") "Running" 30 (30 * 10) 4.5;
      mk_activity (DateStr "2026-11-16") "Cycling" 45 (45 * 7) 10 ]%Q in Hr.
  apply elem_of_cons in Hr as [-> | Hr]; [vm_compute in Hweek; discriminate |].
  apply elem_of_cons in Hr as [-> | Hr]; [vm_compute in Hweek; discriminate |].
  inversion Hr.
Qed.

(** C2, amended.  On a non-empty (well-formed) table the summary runs to
    its end and returns buckets in chronological order, one for every
    calendar week from the week of the earliest record to the week of the
    latest one, none skipped.  Every bucket is labelled by the Sunday that
    ends its week, and its three totals are the plain sums of the three
    columns over exactly the records whose date falls in that week (zero
    when the week has none).  Every record falls in one of the buckets,
    the one whose Sunday is at most six days after the record's date. *)
Theorem weekly_summary_buckets (w : world) :
  wf (self w) = true →
  (0 < length (activities (self w)))%nat →
  let df := activities (self w) in
  ∃ ws w',
    calculate_weekly_summary w = (Ok ws, w') ∧
    (∀ b, b ∈ ws →
       weekday (WeekEnd b) = 6 ∧ b = week_bucket df (WeekEnd b)) ∧
    (∀ i b b', ws !! i = Some b → ws !! S i = Some b' →
       WeekEnd b' = WeekEnd b + 7) ∧
    (∃ b r, head ws = Some b ∧ r ∈ df ∧ week_of r = Some (WeekEnd b)) ∧
    (∃ b r, last ws = Some b ∧ r ∈ df ∧ week_of r = Some (WeekEnd b)) ∧
    (∀ r, r ∈ df →
       ∃ b t, b ∈ ws ∧ cell_day (Date r) = Some t ∧
              week_of r = Some (WeekEnd b) ∧ WeekEnd b - 6 ≤ t ≤ WeekEnd b).
Proof.
  intros Hwf Hlen df.
  destruct (to_datetime_wf _ Hwf) as (ts & Hts & Hall).
  eexists _, _. split.
  { apply (calculate_weekly_summary_run w ts Hts (Forall2_length _ _ _ Hall)). }
  fold df in Hall, Hlen |- *. clearbody df. clear Hts Hwf w.
  destruct Hall as [|r0 t0 df' ts' Hr0 Hall']; [simpl in Hlen; lia |].
  assert (Hall : Forall2 (λ r t, cell_day (Date r) = Some t) (r0 :: df') (t0 :: ts'))
    by (by constructor).
  rewrite (resample_week_buckets r0 df' t0 ts' Hall).
  set (df := r0 :: df') in *. set (ts := t0 :: ts') in *.
  set (tmin := list_min t0 ts). set (tmax := list_max t0 ts).
  assert (Hmin : ∀ t, t ∈ ts → tmin ≤ t) by apply list_min_le.
  assert (Hmax : ∀ t, t ∈ ts → t ≤ tmax) by apply list_max_ge.
  assert (Hminmax : tmin ≤ tmax).
  { pose proof (proj1 (list_min_le t0 ts)). pose proof (proj1 (list_max_ge t0 ts)).
    unfold tmin, tmax. lia. }
  assert (Htmin : tmin ∈ ts).
  { destruct (proj1 (elem_of_cons _ _ _) (list_min_elem t0 ts)) as [Heq | Hin];
      [unfold tmin; rewrite Heq; left | exact Hin]. }
  assert (Htmax : tmax ∈ ts).
  { destruct (proj1 (elem_of_cons _ _ _) (list_max_elem t0 ts)) as [Heq | Hin];
      [unfold tmax; rewrite Heq; left | exact Hin]. }
  assert (Hweek : ∀ r t, cell_day (Date r) = Some t → week_of r = Some (week_end t)).
  { intros r t Hrt. unfold week_of. by rewrite Hrt. }
  split; [|split; [|split; [|split]]].
  - intros b (label & -> & Hlabel)%list_elem_of_fmap. split; [|done].
    apply list_elem_of_lookup in Hlabel as (i & [-> _]%bin_labels_lookup).
    apply weekday_label.
  - intros i b b' Hb Hb'.
    rewrite list_lookup_fmap in Hb, Hb'.
    apply fmap_Some in Hb as (label & [-> _]%bin_labels_lookup & ->).
    apply fmap_Some in Hb' as (label' & [-> _]%bin_labels_lookup & ->).
    cbn [WeekEnd week_bucket]. lia.
  - destruct (Forall2_elem_r _ _ _ tmin Hall Htmin)
      as (r & Hr & Hrt).
    exists (week_bucket df (week_end tmin)), r.
    split; [|split; [done | by apply Hweek]].
    by rewrite head_lookup, list_lookup_fmap, <- head_lookup, bin_labels_head.
  - destruct (Forall2_elem_r _ _ _ tmax Hall Htmax)
      as (r & Hr & Hrt).
    exists (week_bucket df (week_end tmax)), r.
    split; [|split; [done | by apply Hweek]].
    by rewrite fmap_last, bin_labels_last.
  - intros r Hr.
    destruct (Forall2_elem_l _ _ _ r Hall Hr) as (t & Ht & Hrt).
    destruct (bin_labels_cover tmin tmax t (conj (Hmin t Ht) (Hmax t Ht)))
      as (i & Hi).
    exists (week_bucket df (week_end t)), t.
    split; [|split; [done | split; [by apply Hweek |]]].
    + apply (list_elem_of_lookup_2 _ i). by rewrite list_lookup_fmap, Hi.
    + cbn [WeekEnd week_bucket]. pose proof (week_end_bounds t). lia.
Qed.

Lemma weekly_summary_buckets_witness :
  wf (self sample_world) = true ∧
  (0 < length (activities (self sample_world)))%nat ∧
  ∃ ws w',
    calculate_weekly_summary sample_world = (Ok ws, w') ∧
    (∀ b, b ∈ ws →
       weekday (WeekEnd b) = 6 ∧
       b = week_bucket (activities (self sample_world)) (WeekEnd b)).
Proof.
  split; [reflexivity |]. split; [vm_compute; lia |].
  destruct (weekly_summary_buckets sample_world) as (ws & w' & Hrun & Hbuckets & _);
    [reflexivity | vm_compute; lia |].
  exists ws, w'. split; [exact Hrun | exact Hbuckets].
Defined.

End summary_claims.

Section summary_state_claims.
Import Calendar Pandas.

(** C3: what the code does on an empty table.  The summary returns an
    empty frame without raising, but it does not skip the mean: [np.mean]
    is taken over the empty column, and the line with the average is
    printed with [nan]; nothing reports that there is no data. *)
Theorem weekly_summary_empty (d : gmap string (list reading)) (out : list output) :
  calculate_weekly_summary (mk_world (mk_tracker [] d) out) =
  (Ok [],
   mk_world (mk_tracker [] d)
     (out ++ [SummaryHeader; SummaryTable []; AverageDuration NaN])).
Proof.
  exact (calculate_weekly_summary_run (mk_world (mk_tracker [] d) out) []
           eq_refl eq_refl).
Qed.

(** C4, as stated, fails: the summary stores the converted [Date] column
    back into the table, so the stored rows differ from those before the
    call.  On the sample data the column of texts becomes a column of
    timestamps. *)
Lemma weekly_summary_rewrites_dates :
  Date <$> activities (self sample_world) =
    [DateStr "2026-11-03"; DateStr "2026-11-03"; DateStr "2026-11-03"] ∧
  Date <$> activities (self (calculate_weekly_summary sample_world).2) =
    [DateTs 739923; DateTs 739923; DateTs 739923] ∧
  activities (self (calculate_weekly_summary sample_world).2)
    ≠ activities (self sample_world).
Proof.
  split; [vm_compute; reflexivity |]. split; [vm_compute; reflexivity |].
  intros Heq. apply (f_equal (fmap Date)) in Heq.
  vm_compute in Heq. discriminate.
Qed.

(** C4, amended.  On a well-formed table the summary runs to its end and
    leaves the stored rows in the same number and order; each row keeps its
    activity type, duration, calories and distance, and its date stands for
    the same calendar day, but the date is now stored as a timestamp
    instead of the text written when the row was logged.  The health
    metrics are unchanged. *)
Theorem weekly_summary_keeps_records (w : world) :
  wf (self w) = true →
  ∃ ws w',
    calculate_weekly_summary w = (Ok ws, w') ∧
    activities (self w') = normalized <$> activities (self w) ∧
    Forall2 (λ r r',
               ActivityType r' = ActivityType r ∧
               DurationMin r' = DurationMin r ∧
               CaloriesBurned r' = CaloriesBurned r ∧
               DistanceKM r' = DistanceKM r ∧
               cell_day (Date r') = cell_day (Date r) ∧
               ∃ t, Date r' = DateTs t)
            (activities (self w)) (activities (self w')) ∧
    health_metrics (self w') = health_metrics (self w).
Proof.
  intros Hwf.
  destruct (to_datetime_wf _ Hwf) as (ts & Hts & Hall).
  eexists _, _. split.
  { apply (calculate_weekly_summary_run w ts Hts (Forall2_length _ _ _ Hall)). }
  cbn [self activities health_metrics].
  split; [by apply assign_Date_normalized |]. split; [|done].
  clear Hts Hwf. induction Hall as [|r t df ts Hr Hall IH]; [constructor |].
  cbn [assign_Date zip_with]. constructor; [|exact IH].
  cbn [set_Date ActivityType DurationMin CaloriesBurned DistanceKM Date].
  rewrite Hr. eauto 10.
Qed.

Lemma weekly_summary_keeps_records_witness :
  wf (self sample_world) = true ∧
  ∃ ws w',
    calculate_weekly_summary sample_world = (Ok ws, w') ∧
    activities (self w') = normalized <$> activities (self sample_world).
Proof.
  split; [reflexivity |].
  destruct (weekly_summary_keeps_records sample_world) as (ws & w' & Hrun & Hdf & _);
    [reflexivity |].
  exists ws, w'. split; [exact Hrun | exact Hdf].
Defined.

(** C8. On a non-empty (well-formed) table the summary also reports, on
    the output and not in the returned frame, the arithmetic mean of
    [DurationMin] over all the rows of the table, whatever their week: the
    reported value times the number of rows is the sum of the column. *)
Theorem weekly_summary_reports_mean (w : world) :
  wf (self w) = true →
  (0 < length (activities (self w)))%nat →
  ∃ ws w' m,
    calculate_weekly_summary w = (Ok ws, w') ∧
    stdout w' =
      stdout w ++ [SummaryHeader; SummaryTable ws; AverageDuration (Finite m)] ∧
    (m * inject_Z (Z.of_nat (length (activities (self w))))
       == total (DurationMin <$> activities (self w)))%Q.
Proof.
  intros Hwf Hlen.
  destruct (to_datetime_wf _ Hwf) as (ts & Hts & Hall).
  destruct (np_mean_nonempty (DurationMin <$> activities (self w)))
    as (m & Hmean & Hm); [by rewrite length_fmap |].
  rewrite length_fmap in Hm.
  eexists _, _, m. split; [|split; [|exact Hm]].
  { apply (calculate_weekly_summary_run w ts Hts (Forall2_length _ _ _ Hall)). }
  cbn [stdout]. by rewrite Hmean.
Qed.

Lemma weekly_summary_reports_mean_witness :
  wf (self sample_world) = true ∧
  (0 < length (activities (self sample_world)))%nat ∧
  ∃ ws w' m,
    calculate_weekly_summary sample_world = (Ok ws, w') ∧
    In (AverageDuration (Finite m)) (stdout w') ∧
    (m * 3 == 135)%Q.
Proof.
  split; [reflexivity |]. split; [vm_compute; lia |].
  destruct (weekly_summary_reports_mean sample_world) as (ws & w' & m & Hrun & Hout & Hm);
    [reflexivity | vm_compute; lia |].
  exists ws, w', m. split; [exact Hrun |]. split.
  - rewrite Hout. apply in_or_app. right. simpl. auto.
  - rewrite Hm. vm_compute. reflexivity.
Defined.

End summary_state_claims.

(** * Further properties of the tracker *)

Section session_properties.
Import Calendar Pandas.
Local Open Scope Z_scope.

Lemma to_datetime_length (col : list date_cell) (ts : list Z) :
  to_datetime col = Ok ts → length ts = length col.
Proof.
  revert ts. induction col as [|c col IH]; intros ts; cbn [to_datetime].
  - by intros [= <-].
  - destruct (to_datetime_cell c) as [t|]; [|done].
    destruct (to_datetime col) as [ts'|]; [|done].
    intros [= <-]. cbn [length]. by rewrite (IH ts').
Qed.

(** Whether it returns or raises, the summary leaves every column other
    than [Date] as it was. *)
Lemma calculate_weekly_summary_columns {B : Type} (column : activity → B) (w : world) :
  (∀ r t, column (set_Date r t) = column r) →
  column <$> activities (self (calculate_weekly_summary w).2) =
  column <$> activities (self w).
Proof.
  intros Hcol.
  unfold calculate_weekly_summary, mbind, Py_bind, get_activities, lift,
    set_activities, print, mret, Py_ret.
  destruct (to_datetime _) as [ts|] eqn:Hts; [|done].
  apply to_datetime_length in Hts. rewrite length_fmap in Hts.
  cbn [self activities stdout health_metrics].
  destruct (datetime_index _); cbn [snd self activities];
    by apply column_assign.
Qed.

Lemma omap_singleton {A B : Type} (f : A → option B) (x : A) :
  omap f [x] = option_list (f x).
Proof. cbn. by destruct (f x). Qed.

Lemma session_snoc (cmds : list command) (c : command) (w : world) :
  session (cmds ++ [c]) w = (exec c (session cmds w)).2.
Proof. unfold session. by rewrite foldl_app. Qed.

(** X1. The table holds what was logged and nothing else: after any
    session from a fresh tracker the columns other than the date are, row
    by row and in order, the arguments of the [LogActivity] commands with
    the calories derived when each was logged, whatever summaries were run
    in between. *)
Theorem session_table_is_the_log (cmds : list command) :
  plain_columns <$> activities (self (session cmds fresh)) =
  omap logged_activity cmds.
Proof.
  induction cmds as [|c cmds IH] using rev_ind; [done |].
  rewrite session_snoc, omap_app, omap_singleton, <- IH.
  destruct c as [today ty dur dist | today name value |];
    cbn [exec logged_activity option_list].
  - rewrite log_activity_run. cbn [snd self activities].
    by rewrite fmap_app.
  - rewrite log_health_metric_run. cbn [snd self activities].
    by rewrite app_nil_r.
  - rewrite app_nil_r. unfold mbind, Py_bind, mret, Py_ret.
    pose proof (calculate_weekly_summary_columns plain_columns (session cmds fresh)
                  (λ _ _, eq_refl)) as Hcols.
    by destruct (calculate_weekly_summary _) as [[ws|e] w'].
Qed.

(** X2. The readings of a metric are what was logged under its name: after
    any session from a fresh tracker, [get_health_data] returns, without
    raising, exactly the readings of the [LogHealthMetric] commands with
    that name, in order (the empty sequence when there is none). *)
Theorem session_health_data_is_the_log (cmds : list command) (metric_name : string) :
  get_health_data metric_name (session cmds fresh) =
  (Ok (omap (logged_reading metric_name) cmds), session cmds fresh).
Proof.
  unfold get_health_data, mbind, Py_bind, get_health_metrics, mret, Py_ret.
  do 2 f_equal.
  induction cmds as [|c cmds IH] using rev_ind; [done |].
  rewrite session_snoc, omap_app, omap_singleton, <- IH.
  destruct c as [today ty dur dist | today name value |];
    cbn [exec logged_reading option_list].
  - rewrite log_activity_run. cbn [snd self health_metrics]. by rewrite app_nil_r.
  - rewrite log_health_metric_run. cbn [snd self health_metrics].
    destruct (decide (name = metric_name)) as [-> | Hne]; cbn [option_list].
    + by rewrite lookup_insert_eq.
    + rewrite lookup_insert_ne by done. by rewrite app_nil_r.
  - rewrite app_nil_r. unfold mbind, Py_bind, mret, Py_ret.
    pose proof (calculate_weekly_summary_health_metrics (session cmds fresh)) as Hframe.
    destruct (calculate_weekly_summary _) as [[ws|e] w']; cbn [snd] in *;
      by rewrite Hframe.
Qed.

End session_properties.

Section summary_properties.
Import Calendar Pandas.
Local Open Scope Z_scope.

Lemma to_datetime_assign (df : list activity) (ts : list Z) :
  length df = length ts →
  to_datetime (Date <$> assign_Date df ts) = Ok ts.
Proof.
  revert ts. induction df as [|r df IH]; intros [|t ts] Hlen; try done.
  cbn [assign_Date zip_with]. rewrite fmap_cons. cbn [to_datetime set_Date Date to_datetime_cell].
  change (zip_with set_Date df ts) with (assign_Date df ts).
  rewrite IH; [done | simpl in Hlen; lia].
Qed.

Lemma assign_Date_again (df : list activity) (ts : list Z) :
  assign_Date (assign_Date df ts) ts = assign_Date df ts.
Proof.
  revert ts. induction df as [|r df IH]; intros [|t ts]; try done.
  cbn [assign_Date zip_with]. f_equal. apply IH.
Qed.

(** X3. In a session whose dates come from the clock no method raises:
    whatever was logged and summarised before, each command runs to its
    end. *)
Theorem session_never_raises (cmds : list command) (c : command) :
  forallb clock_ok cmds = true →
  clock_ok c = true →
  (exec c (session cmds fresh)).1 = Ok ().
Proof.
  intros Hcmds Hc.
  destruct c as [today ty dur dist | today name value |]; cbn [exec].
  - by rewrite log_activity_run.
  - by rewrite log_health_metric_run.
  - pose proof (session_wf cmds fresh Hcmds eq_refl) as Hwf.
    destruct (to_datetime_wf _ Hwf) as (ts & Hts & Hall).
    unfold mbind, Py_bind.
    by rewrite (calculate_weekly_summary_run _ ts Hts (Forall2_length _ _ _ Hall)).
Qed.

Lemma session_never_raises_witness :
  forallb clock_ok (sample_session (mkdate 2026 11 3)) = true ∧
  clock_ok WeeklySummary = true ∧
  (exec WeeklySummary sample_world).1 = Ok ().
Proof.
  split; [reflexivity |]. split; [reflexivity |].
  apply (session_never_raises (sample_session (mkdate 2026 11 3)) WeeklySummary);
    reflexivity.
Defined.

(** X4. Asking for the summary twice in a row gives the same frame twice,
    and the second call leaves the tracker exactly as the first one left
    it: the rewriting of the stored dates happens once. *)
Theorem weekly_summary_twice (w : world) :
  wf (self w) = true →
  ∃ ws w1 w2,
    calculate_weekly_summary w = (Ok ws, w1) ∧
    calculate_weekly_summary w1 = (Ok ws, w2) ∧
    self w2 = self w1.
Proof.
  intros Hwf.
  destruct (to_datetime_wf _ Hwf) as (ts & Hts & Hall).
  pose proof (Forall2_length _ _ _ Hall) as Hlen.
  eexists _, _, _. split; [apply (calculate_weekly_summary_run w ts Hts Hlen) |].
  split.
  - rewrite (calculate_weekly_summary_run _ ts); cbn [self activities].
    + rewrite !(column_assign _ (activities (self w)) ts) by done. reflexivity.
    + by apply to_datetime_assign.
    + unfold assign_Date. rewrite length_zip_with. lia.
  - cbn [self activities health_metrics]. by rewrite assign_Date_again.
Qed.

Lemma weekly_summary_twice_witness :
  wf (self sample_world) = true ∧
  ∃ ws w1 w2,
    calculate_weekly_summary sample_world = (Ok ws, w1) ∧
    calculate_weekly_summary w1 = (Ok ws, w2) ∧
    self w2 = self w1.
Proof.
  split; [reflexivity |]. apply (weekly_summary_twice sample_world). reflexivity.
Defined.

End summary_properties.

Section conservation.
Import Calendar Pandas.
Local Open Scope Z_scope.

(** A column of the resampled frame ([col]) and the column of the table it
    aggregates ([vcol]). *)
Context (col : week_row → Q) (vcol : Q * Q * Q → Q).
Hypothesis col_accumulate : ∀ v b, col (accumulate v b) = (col b + vcol v)%Q.
Hypothesis col_empty : ∀ label, col (empty_bin label) = 0%Q.

Lemma total_cons (x : Q) (l : list Q) : total (x :: l) = (x + total l)%Q.
Proof. reflexivity. Qed.

Lemma total_alter (v : Q * Q * Q) (i : nat) (bins : list week_row) :
  (i < length bins)%nat →
  (total (col <$> alter (accumulate v) i bins) == total (col <$> bins) + vcol v)%Q.
Proof.
  revert i. induction bins as [|b bins IH]; intros [|i] Hlt; simpl in Hlt; try lia.
  - change (alter (accumulate v) 0%nat (b :: bins)) with (accumulate v b :: bins).
    rewrite !fmap_cons, !total_cons, col_accumulate. ring.
  - change (alter (accumulate v) (S i) (b :: bins))
      with (b :: alter (accumulate v) i bins).
    rewrite !fmap_cons, !total_cons, IH by lia. ring.
Qed.

Lemma total_foldl_bins (first : Z) (rows : list (Z * (Q * Q * Q))) (bins : list week_row) :
  (∀ row, row ∈ rows → (bin_index first row.1 < length bins)%nat) →
  (total (col <$> foldl (add_to_bin first) bins rows)
   == total (col <$> bins) + total (vcol <$> rows.*2))%Q.
Proof.
  revert bins. induction rows as [|row rows IH]; intros bins Hrange.
  - cbn [foldl]. rewrite !fmap_nil. change (total []) with 0%Q. ring.
  - cbn [foldl]. rewrite IH.
    + unfold add_to_bin. rewrite total_alter by (apply Hrange; left).
      rewrite !fmap_cons, total_cons. ring.
    + intros row' Hrow'. unfold add_to_bin. rewrite length_alter.
      apply Hrange. by right.
Qed.

Lemma total_empty_bins (labels : list Z) :
  (total (col <$> (empty_bin <$> labels)) == 0)%Q.
Proof.
  induction labels as [|label labels IH]; [reflexivity |].
  rewrite !fmap_cons, total_cons, col_empty, IH. ring.
Qed.

Lemma bin_index_lt (tmin tmax t : Z) :
  tmin ≤ t ≤ tmax →
  (bin_index (week_end tmin) t < length (bin_labels (week_end tmin) (week_end tmax)))%nat.
Proof.
  intros Ht. rewrite bin_labels_length. unfold bin_index.
  pose proof (week_end_mono tmin t) as Hlo.
  pose proof (week_end_mono t tmax) as Hhi.
  pose proof (week_end_multiple tmin) as Hmin.
  pose proof (week_end_multiple tmax) as Hmax.
  pose proof (week_end_multiple t) as Hmid.
  apply Z2Nat.inj_lt; Z.div_mod_to_equations; lia.
Qed.

(** The resampled column adds up to the column of the table. *)
Lemma resample_W_sum_total (rows : list (Z * (Q * Q * Q))) :
  (total (col <$> resample_W_sum rows) == total (vcol <$> rows.*2))%Q.
Proof.
  destruct rows as [|[t0 v0] rows']; [reflexivity |].
  set (rows := (t0, v0) :: rows').
  set (tmin := list_min t0 rows.*1). set (tmax := list_max t0 rows.*1).
  change (resample_W_sum rows)
    with (foldl (add_to_bin (week_end tmin))
            (empty_bin <$> bin_labels (week_end tmin) (week_end tmax)) rows).
  rewrite total_foldl_bins.
  - rewrite total_empty_bins. ring.
  - intros row Hrow. rewrite length_fmap. apply bin_index_lt.
    apply (list_elem_of_fmap_2 fst) in Hrow.
    split; [by apply list_min_le | by apply list_max_ge].
Qed.

End conservation.

Section summary_properties_2.
Import Calendar Pandas.
Local Open Scope Z_scope.

(** X5. Nothing is lost or counted twice by the weekly summary: on a
    well-formed table each of the three columns of the returned frame adds
    up to the same column of the whole table. *)
Theorem weekly_summary_conserves_totals (w : world) :
  wf (self w) = true →
  ∃ ws w',
    calculate_weekly_summary w = (Ok ws, w') ∧
    (total (SumDurationMin <$> ws) == total (DurationMin <$> activities (self w)))%Q ∧
    (total (SumCaloriesBurned <$> ws) == total (CaloriesBurned <$> activities (self w)))%Q ∧
    (total (SumDistanceKM <$> ws) == total (DistanceKM <$> activities (self w)))%Q.
Proof.
  intros Hwf.
  destruct (to_datetime_wf _ Hwf) as (ts & Hts & Hall).
  pose proof (Forall2_length _ _ _ Hall) as Hlen.
  eexists _, _. split; [apply (calculate_weekly_summary_run w ts Hts Hlen) |].
  assert (Hsnd : (zip ts (aggregated <$> activities (self w))).*2
                 = aggregated <$> activities (self w))
    by (apply snd_zip; rewrite length_fmap; lia).
  split; [|split].
  - rewrite (resample_W_sum_total SumDurationMin (λ v, v.1.1));
      [| by intros [[??]?] ? | done].
    by rewrite Hsnd, <- list_fmap_compose.
  - rewrite (resample_W_sum_total SumCaloriesBurned (λ v, v.1.2));
      [| by intros [[??]?] ? | done].
    by rewrite Hsnd, <- list_fmap_compose.
  - rewrite (resample_W_sum_total SumDistanceKM (λ v, v.2));
      [| by intros [[??]?] ? | done].
    by rewrite Hsnd, <- list_fmap_compose.
Qed.

Lemma weekly_summary_conserves_totals_witness :
  wf (self gap_world) = true ∧
  ∃ ws w',
    calculate_weekly_summary gap_world = (Ok ws, w') ∧
    (total (SumDurationMin <$> ws) == 75)%Q.
Proof.
  split; [reflexivity |].
  destruct (weekly_summary_conserves_totals gap_world) as (ws & w' & Hrun & Hdur & _);
    [reflexivity |].
  exists ws, w'. split; [exact Hrun |]. rewrite Hdur. vm_compute. reflexivity.
Defined.




(** X7. Metrics are separate name spaces: logging under two different
    names gives the same tracker in either order. *)
Theorem log_health_metric_commutes (today1 today2 : date) (name1 name2 : string)
    (value1 value2 : Q) (w : world) :
  name1 ≠ name2 →
  self ((log_health_metric today1 name1 value1;;
         log_health_metric today2 name2 value2) w).2 =
  self ((log_health_metric today2 name2 value2;;
         log_health_metric today1 name1 value1) w).2.
Proof.
  intros Hne. unfold mbind, Py_bind. rewrite !log_health_metric_run.
  cbn [snd self activities health_metrics]. f_equal.
  rewrite !lookup_insert_ne by done.
  by apply insert_insert_ne.
Qed.

Lemma log_health_metric_commutes_witness :
  "Weight_KG" ≠ "restingHR_BPM" ∧
  self ((log_health_metric (mkdate 2026 11 3) "Weight_KG" 75.2;;
         log_health_metric (mkdate 2026 11 3) "restingHR_BPM" 60) fresh).2 =
  self ((log_health_metric (mkdate 2026 11 3) "restingHR_BPM" 60;;
         log_health_metric (mkdate 2026 11 3) "Weight_KG" 75.2) fresh).2.
Proof.
  split; [discriminate |].
  apply (log_health_metric_commutes (mkdate 2026 11 3) (mkdate 2026 11 3)
           "Weight_KG" "restingHR_BPM" 75.2 60 fresh).
  discriminate.
Defined.

End summary_properties_2.

(** * The plotting functions *)

Section string_order.

Lemma ascii_compare_refl (a : ascii) : Ascii.compare a a = Eq.
Proof. unfold Ascii.compare. apply N.compare_refl. Qed.

Lemma ascii_compare_lt_trans (a b c : ascii) :
  Ascii.compare a b = Lt → Ascii.compare b c = Lt → Ascii.compare a c = Lt.
Proof.
  unfold Ascii.compare. rewrite !N.compare_lt_iff. apply N.lt_trans.
Qed.

Lemma string_compare_refl (s : string) : String.compare s s = Eq.
Proof.
  induction s as [|a s IH]; [done |].
  cbn [String.compare]. by rewrite ascii_compare_refl.
Qed.

Lemma string_compare_lt_trans (s1 s2 s3 : string) :
  String.compare s1 s2 = Lt → String.compare s2 s3 = Lt → String.compare s1 s3 = Lt.
Proof.
  revert s2 s3. induction s1 as [|a1 s1 IH]; intros [|a2 s2] [|a3 s3]; try done.
  cbn [String.compare].
  destruct (Ascii.compare a1 a2) eqn:H12; try done;
    destruct (Ascii.compare a2 a3) eqn:H23; try done; intros Hs12 Hs23.
  - apply Ascii.compare_eq_iff in H12 as ->, H23 as ->.
    rewrite ascii_compare_refl. by apply (IH s2).
  - apply Ascii.compare_eq_iff in H12 as ->. by rewrite H23.
  - apply Ascii.compare_eq_iff in H23 as <-. by rewrite H12.
  - by rewrite (ascii_compare_lt_trans a1 a2 a3).
Qed.

Lemma string_ltb_trans (s1 s2 s3 : string) :
  String.ltb s1 s2 = true → String.ltb s2 s3 = true → String.ltb s1 s3 = true.
Proof.
  unfold String.ltb. intros H12 H23.
  destruct (String.compare s1 s2) eqn:E12; try done.
  destruct (String.compare s2 s3) eqn:E23; try done.
  by rewrite (string_compare_lt_trans s1 s2 s3).
Qed.

Lemma string_ltb_irrefl (s : string) : String.ltb s s = false.
Proof. unfold String.ltb. by rewrite string_compare_refl. Qed.

(** Two strings that are neither equal nor in order are in the other
    order. *)
Lemma string_ltb_total (s1 s2 : string) :
  String.eqb s1 s2 = false → String.ltb s1 s2 = false → String.ltb s2 s1 = true.
Proof.
  unfold String.ltb. intros Hne Hlt.
  rewrite (String.compare_antisym s2 s1).
  destruct (String.compare s1 s2) eqn:E; try done.
  apply String.compare_eq_iff in E. apply String.eqb_neq in Hne. done.
Qed.

End string_order.

Section groupby_facts.
Import Pandas.

Lemma group_add_keys (key : string) (v : Q) (groups : list (string * Q)) (k : string) :
  k ∈ (group_add key v groups).*1 → k = key ∨ k ∈ groups.*1.
Proof.
  induction groups as [|[k0 v0] groups IH]; cbn [group_add].
  - intros Hk. left. by apply list_elem_of_singleton in Hk.
  - destruct (String.eqb_spec key k0) as [-> | Hne]; [by right |].
    destruct (String.ltb key k0).
    + rewrite fmap_cons. intros [-> | Hk]%elem_of_cons; [by left | by right].
    + rewrite !fmap_cons. intros [-> | Hk]%elem_of_cons; [right; left |].
      destruct (IH Hk) as [-> | Hin]; [by left | right; by right].
Qed.

Lemma group_add_ascending (key : string) (v : Q) (groups : list (string * Q)) :
  keys_ascending groups → keys_ascending (group_add key v groups).
Proof.
  unfold keys_ascending.
  induction 1 as [|[k0 v0] groups Hsorted IH Hhd]; cbn [group_add].
  - repeat constructor.
  - destruct (String.eqb_spec key k0) as [-> | Hne].
    + constructor; [done |]. eapply Forall_impl; [exact Hhd | done].
    + destruct (String.ltb key k0) eqn:Hlt.
      * constructor; [by constructor |]. constructor; [done |].
        eapply Forall_impl; [exact Hhd |]. intros g Hg. cbn in *.
        by apply (string_ltb_trans key k0).
      * constructor; [exact IH |].
        apply Forall_forall. intros [k1 v1] Hin. cbn.
        apply (list_elem_of_fmap_2 fst) in Hin. cbn in Hin.
        destruct (group_add_keys _ _ _ _ Hin) as [-> | Hold].
        -- apply string_ltb_total; [|done]. by apply String.eqb_neq.
        -- apply list_elem_of_fmap in Hold as (g & -> & Hg).
           by apply (proj1 (Forall_forall _ _) Hhd g).
Qed.

(** A type below every key of the chart has no bar. *)
Lemma bar_of_below (key : string) (groups : list (string * Q)) :
  Forall (λ g, String.ltb key g.1 = true) groups → bar_of key groups = None.
Proof.
  induction 1 as [|[k0 v0] groups Hlt _ IH]; [done |].
  cbn [bar_of]. cbn in Hlt.
  destruct (String.eqb_spec key k0) as [-> | Hne]; [|done].
  by rewrite string_ltb_irrefl in Hlt.
Qed.

Lemma bar_of_group_add (key key' : string) (v : Q) (groups : list (string * Q)) :
  keys_ascending groups →
  bar_of key' (group_add key v groups) =
  if String.eqb key' key then Some (default 0 (bar_of key groups) + v)%Q
  else bar_of key' groups.
Proof.
  unfold keys_ascending.
  induction 1 as [|[k0 v0] groups Hsorted IH Hhd]; cbn [group_add bar_of].
  - by destruct (String.eqb key' key).
  - destruct (String.eqb_spec key k0) as [-> | Hne].
    + cbn [bar_of]. by destruct (String.eqb key' k0).
    + destruct (String.ltb key k0) eqn:Hlt.
      * cbn [bar_of]. destruct (String.eqb_spec key' key) as [-> | Hne']; [|done].
        rewrite bar_of_below; [done |].
        eapply Forall_impl; [exact Hhd |]. intros g Hg. cbn in *.
        by apply (string_ltb_trans key k0).
      * cbn [bar_of]. rewrite IH.
        destruct (String.eqb_spec key' k0) as [-> | Hne0]; [|done].
        by rewrite (proj2 (String.eqb_neq k0 key)) by done.
Qed.

Lemma groupby_sum_snoc (rows : list (string * Q)) (row : string * Q) :
  groupby_sum (rows ++ [row]) = group_add row.1 row.2 (groupby_sum rows).
Proof. unfold groupby_sum. by rewrite foldl_app. Qed.

Lemma groupby_sum_ascending (rows : list (string * Q)) :
  keys_ascending (groupby_sum rows).
Proof.
  induction rows as [|row rows IH] using rev_ind; [constructor |].
  rewrite groupby_sum_snoc. by apply group_add_ascending.
Qed.

(** The bar of a key is the sum, from 0 and in row order, of the values of
    the rows with that key; there is a bar exactly for the keys that
    occur. *)
Lemma groupby_sum_bar (rows : list (string * Q)) (key : string) :
  default 0%Q (bar_of key (groupby_sum rows))
    = np_sum (filter (λ row, row.1 = key) rows).*2 ∧
  (is_Some (bar_of key (groupby_sum rows)) ↔ key ∈ rows.*1).
Proof.
  induction rows as [|[k v] rows [IHsum IHsome]] using rev_ind.
  - split; [done |]. split; [by intros [? ?] | by intros ?%elem_of_nil].
  - rewrite groupby_sum_snoc, bar_of_group_add by apply groupby_sum_ascending.
    rewrite filter_app, !fmap_app, filter_cons, filter_nil. cbn [fst snd].
    destruct (String.eqb_spec key k) as [-> | Hne].
    + rewrite decide_True by done. split.
      * cbn [default fmap list_fmap]. unfold np_sum in *.
        by rewrite foldl_app, <- IHsum.
      * split; [intros _ | by eauto]. apply elem_of_app. right. left.
    + rewrite decide_False by done. rewrite fmap_nil, app_nil_r. split; [done |].
      rewrite IHsome. split; [intros Hin; apply elem_of_app; by left |].
      intros [Hin | Hin]%elem_of_app; [done |].
      apply list_elem_of_fmap in Hin as (row & -> & Hrow).
      apply list_elem_of_singleton in Hrow as ->. done.
Qed.

Lemma filter_type_rows (df : list activity) (activity_type : string) :
  (filter (λ row : string * Q, row.1 = activity_type)
     ((λ r, (ActivityType r, DurationMin r)) <$> df)).*2
  = DurationMin <$> filter (λ r, ActivityType r = activity_type) df.
Proof.
  induction df as [|r df IH]; [done |].
  rewrite fmap_cons, !filter_cons. cbn [fst].
  destruct (decide (ActivityType r = activity_type)); rewrite ?fmap_cons; cbn [snd];
    by rewrite IH.
Qed.

End groupby_facts.

Section plot_properties.
Import Calendar Pandas.

(** X8. The bar chart has one bar for each activity type of the table, in
    ascending order of type, as high as the plain sum of the durations of
    the records of that type; on an empty table nothing is drawn and the
    notice is printed instead. *)
Theorem visualize_activity_trends_chart (df : list activity) :
  match df with
  | [] =>
      visualize_activity_trends df =
      [Say "Not enough data to visualize activity trends."]
  | _ :: _ =>
      ∃ summary,
        visualize_activity_trends df = [BarPlot summary] ∧
        keys_ascending summary ∧
        ∀ activity_type,
          bar_of activity_type summary =
          if decide (activity_type ∈ ActivityType <$> df)
          then Some (type_total activity_type df)
          else None
  end.
Proof.
  destruct df as [|r0 df']; [done |].
  set (df := r0 :: df').
  set (rows := (λ r, (ActivityType r, DurationMin r)) <$> df).
  exists (groupby_sum rows). split; [done |].
  split; [apply groupby_sum_ascending |].
  intros activity_type.
  destruct (groupby_sum_bar rows activity_type) as [Hsum Hsome].
  assert (Hkeys : rows.*1 = ActivityType <$> df)
    by (unfold rows; by rewrite <- list_fmap_compose).
  rewrite Hkeys in Hsome.
  assert (Hvals : (filter (λ row : string * Q, row.1 = activity_type) rows).*2
                  = DurationMin <$> filter (λ r, ActivityType r = activity_type) df)
    by apply filter_type_rows.
  rewrite Hvals in Hsum. fold (type_total activity_type df) in Hsum.
  destruct (decide (activity_type ∈ ActivityType <$> df)) as [Hin | Hout].
  - destruct (proj2 Hsome Hin) as [x Hx]. rewrite Hx in Hsum |- *.
    change (x = type_total activity_type df) in Hsum. by rewrite Hsum.
  - destruct (bar_of activity_type (groupby_sum _)) as [x|] eqn:Hx; [|done].
    destruct Hout. apply Hsome. eauto.
Qed.

End plot_properties.

Section progress_plot_properties.
Import Calendar Pandas.

Lemma to_datetime_wf_readings (df : list reading) :
  wf_readings df = true →
  ∃ ts, to_datetime (ReadingDate <$> df) = Ok ts ∧
        Forall2 (λ r t, cell_day (ReadingDate r) = Some t) df ts.
Proof.
  unfold wf_readings. induction df as [|r df IH]; cbn [forallb].
  - intros _. exists []. split; [done | constructor].
  - intros [Hr Hdf]%andb_prop. destruct (IH Hdf) as (ts & Hts & Hall).
    apply bool_decide_eq_true in Hr as [t Ht].
    unfold cell_day in Ht.
    destruct (to_datetime_cell (ReadingDate r)) as [t' |] eqn:Hcell; [|done].
    exists (t' :: ts). split.
    + rewrite fmap_cons. cbn [to_datetime]. by rewrite Hcell, Hts.
    + constructor; [|done]. unfold cell_day. by rewrite Hcell.
Qed.

Lemma put_Date_dates (df : list reading) (ts : list Z) :
  length df = length ts →
  ReadingDate <$> zip_with (λ r t, mk_reading (DateTs t) (Value r)) df ts
  = DateTs <$> ts.
Proof.
  revert ts. induction df as [|r df IH]; intros [|t ts] Hlen; try done.
  cbn [zip_with]. rewrite !fmap_cons. cbn [ReadingDate]. f_equal.
  apply IH. simpl in Hlen. lia.
Qed.

Lemma put_Date_values {B : Type} (f : Q → B) (df : list reading) (ts : list Z) :
  length df = length ts →
  (λ r, f (Value r)) <$> zip_with (λ r t, mk_reading (DateTs t) (Value r)) df ts
  = (λ r, f (Value r)) <$> df.
Proof.
  revert ts. induction df as [|r df IH]; intros [|t ts] Hlen; try done.
  cbn [zip_with]. rewrite !fmap_cons. cbn [Value]. f_equal.
  apply IH. simpl in Hlen. lia.
Qed.

(** X9. On a non-empty frame of readings, [visualize_progress_over_time]
    with metric "Value" raises nothing and draws one line: the stored
    values, in order, against the days of the readings.  The frame it was
    handed is left with every date replaced by the timestamp of the same
    day and every value as it was. *)
Theorem visualize_progress_plots_values (df : list reading) :
  wf_readings df = true →
  (0 < length df)%nat →
  ∃ ts,
    Forall2 (λ r t, cell_day (ReadingDate r) = Some t) df ts ∧
    visualize_progress_over_time df "Value" =
    mk_drawn None
      [LinePlot "Value" (DateTs <$> ts) ((λ r, CellNumber (Value r)) <$> df)]
      (zip_with (λ r t, mk_reading (DateTs t) (Value r)) df ts).
Proof.
  intros Hwf Hlen.
  destruct (to_datetime_wf_readings df Hwf) as (ts & Hts & Hall).
  pose proof (Forall2_length _ _ _ Hall) as Hlens.
  exists ts. split; [exact Hall |].
  unfold visualize_progress_over_time.
  destruct df as [|r df']; [simpl in Hlen; lia |].
  cbn [is_empty get_Date put_Date get_column reading_frame].
  rewrite Hts. cbn [String.eqb Ascii.eqb Bool.eqb].
  by rewrite put_Date_dates, (put_Date_values CellNumber) by done.
Qed.

Lemma visualize_progress_plots_values_witness :
  let df := [mk_reading (DateStr "2026-11-03") 75.2;
             mk_reading (DateStr "2026-11-10") 74.8] in
  wf_readings df = true ∧
  (0 < length df)%nat ∧
  shown (visualize_progress_over_time df "Value") =
    [LinePlot "Value" [DateTs 739923; DateTs 739930] [CellNumber 75.2; CellNumber 74.8]].
Proof.
  split; [reflexivity |]. split; [simpl; lia |].
  destruct (visualize_progress_plots_values
              [mk_reading (DateStr "2026-11-03") 75.2;
               mk_reading (DateStr "2026-11-10") 74.8])
    as (ts & Hall & Hplot); [reflexivity | simpl; lia |].
  reflexivity.
Defined.

(** X10. The default metric, "CaloriesBurned", is not a column of a frame
    of readings: on a non-empty one the call raises [KeyError] and draws
    nothing, and the dates of the frame it was handed have been rewritten
    all the same. *)
Theorem visualize_progress_default_metric (df : list reading) :
  wf_readings df = true →
  (0 < length df)%nat →
  ∃ ts,
    Forall2 (λ r t, cell_day (ReadingDate r) = Some t) df ts ∧
    visualize_progress_over_time df default_metric =
    mk_drawn (Some (KeyError "CaloriesBurned")) []
      (zip_with (λ r t, mk_reading (DateTs t) (Value r)) df ts).
Proof.
  intros Hwf Hlen.
  destruct (to_datetime_wf_readings df Hwf) as (ts & Hts & Hall).
  exists ts. split; [exact Hall |].
  unfold visualize_progress_over_time.
  destruct df as [|r df']; [simpl in Hlen; lia |].
  cbn [is_empty get_Date put_Date get_column reading_frame].
  by rewrite Hts.
Qed.

Lemma visualize_progress_default_metric_witness :
  let df := [mk_reading (DateStr "2026-11-03") 75.2] in
  wf_readings df = true ∧
  (0 < length df)%nat ∧
  raised (visualize_progress_over_time df default_metric) =
    Some (KeyError "CaloriesBurned") ∧
  frame_after (visualize_progress_over_time df default_metric) =
    [mk_reading (DateTs 739923) 75.2].
Proof.
  split; [reflexivity |]. split; [simpl; lia |].
  destruct (visualize_progress_default_metric [mk_reading (DateStr "2026-11-03") 75.2])
    as (ts & Hall & Hplot); [reflexivity | simpl; lia |].
  split; reflexivity.
Defined.

End progress_plot_properties.

(** * The dashboard *)

Section wp_rules.

Lemma wp_ret {A : Type} (a : A) (post : outcome A → dash → Prop) (s : dash) :
  post (Done a) s → wp (mret a) post s.
Proof. done. Qed.

Lemma wp_bind {A B : Type} (m : Dash A) (k : A → Dash B)
    (post : outcome B → dash → Prop) (s : dash) :
  wp m (λ o s', match o with
                | Done a => wp (k a) post s'
                | Crash c => post (Crash c) s'
                end) s →
  wp (m ≫= k) post s.
Proof.
  unfold wp, mbind, Dash_bind. by destruct (m s) as [[a|c] s'].
Qed.

Lemma wp_abort {A : Type} (c : crash) (post : outcome A → dash → Prop) (s : dash) :
  post (Crash c) s → wp (abort c) post s.
Proof. done. Qed.

Lemma wp_show (es : list event) (post : outcome unit → dash → Prop) (s : dash) :
  post (Done ()) (mk_dash (tracker s) (console s ++ es) (stdin s) (clock_reads s)) →
  wp (show es) post s.
Proof. done. Qed.

Lemma wp_say (line : string) (post : outcome unit → dash → Prop) (s : dash) :
  post (Done ())
    (mk_dash (tracker s) (console s ++ [Say line]) (stdin s) (clock_reads s)) →
  wp (say line) post s.
Proof. done. Qed.

Lemma wp_input (prompt : string) (post : outcome string → dash → Prop) (s : dash) :
  match stdin s with
  | [] =>
      post (Crash EOFError)
        (mk_dash (tracker s) (console s ++ [Ask prompt]) [] (clock_reads s))
  | line :: rest =>
      post (Done line)
        (mk_dash (tracker s) (console s ++ [Ask prompt]) rest (clock_reads s))
  end →
  wp (input prompt) post s.
Proof.
  unfold wp, input. destruct s as [tr con [|line rest] clk]; by cbn.
Qed.

Lemma wp_float (env : environment) (line : string)
    (post : outcome Q → dash → Prop) (s : dash) :
  match float_of env line with
  | Some q => post (Done q) s
  | None => post (Crash (Uncaught (ValueError line))) s
  end →
  wp (float env line) post s.
Proof. unfold wp, float. by destruct (float_of env line). Qed.

Lemma wp_today (env : environment) (post : outcome Calendar.date → dash → Prop)
    (s : dash) :
  post (Done (date_today env (clock_reads s)))
    (mk_dash (tracker s) (console s) (stdin s) (S (clock_reads s))) →
  wp (today env) post s.
Proof. done. Qed.

Lemma wp_call {A : Type} (m : Py A) (post : outcome A → dash → Prop) (s : dash) :
  post (match (m (mk_world (tracker s) [])).1 with
        | Ok a => Done a
        | Raise e => Crash (Uncaught e)
        end)
       (mk_dash (self (m (mk_world (tracker s) [])).2)
                (console s ++ (Printed <$> stdout (m (mk_world (tracker s) [])).2))
                (stdin s) (clock_reads s)) →
  wp (call m) post s.
Proof.
  unfold wp, call. by destruct (m (mk_world (tracker s) [])) as [r w].
Qed.

Lemma wp_stored_frame_becomes (metric_name : string) (df : list reading)
    (post : outcome unit → dash → Prop) (s : dash) :
  post (Done ())
    (mk_dash (mk_tracker (activities (tracker s))
                (<[metric_name := df]> (health_metrics (tracker s))))
             (console s) (stdin s) (clock_reads s)) →
  wp (stored_frame_becomes metric_name df) post s.
Proof. done. Qed.

Lemma wp_mono {A : Type} (m : Dash A) (post post' : outcome A → dash → Prop) (s : dash) :
  (∀ o s', post o s' → post' o s') → wp m post s → wp m post' s.
Proof. unfold wp. auto. Qed.

End wp_rules.

(** One step through a program of the dashboard. *)
Ltac wp_step :=
  lazymatch goal with
  | |- wp (mbind _ _) _ _ => apply wp_bind
  | |- wp (mret _) _ _ => apply wp_ret
  | |- wp (say _) _ _ => apply wp_say
  | |- wp (show _) _ _ => apply wp_show
  | |- wp (abort _) _ _ => apply wp_abort
  | |- wp (today _) _ _ => apply wp_today
  | |- wp (float _ _) _ _ => apply wp_float
  | |- wp (stored_frame_becomes _ _) _ _ => apply wp_stored_frame_becomes
  end;
  cbv beta iota; cbn [tracker console stdin clock_reads].

Section call_rules.
Import Calendar Pandas.

Lemma wp_call_log_activity (d : date) (activity_type : string)
    (duration_min distance_km : Q) (post : outcome unit → dash → Prop) (s : dash) :
  post (Done ())
    (mk_dash
       (mk_tracker
          (activities (tracker s) ++
           [mk_activity (DateStr (strftime d)) activity_type duration_min
              (if String.eqb activity_type "Running" then duration_min * 10
               else if String.eqb activity_type "Cycling" then duration_min * 7
               else duration_min * 5)%Q
              distance_km])
          (health_metrics (tracker s)))
       (console s ++ [Printed (ActivityLogged activity_type duration_min)])
       (stdin s) (clock_reads s)) →
  wp (call (log_activity d activity_type duration_min distance_km)) post s.
Proof. intros Hpost. apply wp_call. by rewrite log_activity_run. Qed.

Lemma wp_call_log_health_metric (d : date) (metric_name : string) (value : Q)
    (post : outcome unit → dash → Prop) (s : dash) :
  post (Done ())
    (mk_dash
       (mk_tracker
          (activities (tracker s))
          (<[metric_name :=
               default [] (health_metrics (tracker s) !! metric_name) ++
               [mk_reading (DateStr (strftime d)) value]]>
             (health_metrics (tracker s))))
       (console s ++ [Printed (MetricLogged metric_name value)])
       (stdin s) (clock_reads s)) →
  wp (call (log_health_metric d metric_name value)) post s.
Proof. intros Hpost. apply wp_call. by rewrite log_health_metric_run. Qed.

Lemma wp_call_get_activity_data (post : outcome (list activity) → dash → Prop)
    (s : dash) :
  post (Done (activities (tracker s)))
    (mk_dash (tracker s) (console s) (stdin s) (clock_reads s)) →
  wp (call get_activity_data) post s.
Proof.
  intros Hpost. apply wp_call. cbn [get_activity_data get_activities fst snd self stdout fmap list_fmap].
  by rewrite app_nil_r.
Qed.

Lemma wp_call_get_health_data (metric_name : string)
    (post : outcome (list reading) → dash → Prop) (s : dash) :
  post (Done (default [] (health_metrics (tracker s) !! metric_name)))
    (mk_dash (tracker s) (console s) (stdin s) (clock_reads s)) →
  wp (call (get_health_data metric_name)) post s.
Proof.
  intros Hpost. apply wp_call.
  unfold get_health_data, mbind, Py_bind, get_health_metrics, mret, Py_ret.
  cbn [fst snd self stdout fmap list_fmap]. by rewrite app_nil_r.
Qed.

(** The summary on any table: it raises before it has changed or printed
    anything, or it runs to its end. *)
Lemma calculate_weekly_summary_cases (w : world) :
  match to_datetime (Date <$> activities (self w)) with
  | Raise e => calculate_weekly_summary w = (Raise e, w)
  | Ok ts =>
      length (activities (self w)) = length ts ∧
      let weekly_summary :=
        resample_W_sum (zip ts (aggregated <$> activities (self w))) in
      calculate_weekly_summary w =
      (Ok weekly_summary,
       mk_world (mk_tracker (assign_Date (activities (self w)) ts)
                   (health_metrics (self w)))
         (stdout w ++
          [SummaryHeader; SummaryTable weekly_summary;
           AverageDuration (np_mean (DurationMin <$> activities (self w)))]))
  end.
Proof.
  destruct (to_datetime _) as [ts|e] eqn:Hts.
  - pose proof (to_datetime_length _ _ Hts) as Hlen. rewrite length_fmap in Hlen.
    split; [done |]. by apply calculate_weekly_summary_run.
  - unfold calculate_weekly_summary, mbind, Py_bind, get_activities, lift.
    rewrite Hts. by destruct w.
Qed.

Lemma wp_call_calculate_weekly_summary
    (post : outcome (list week_row) → dash → Prop) (s : dash) :
  match to_datetime (Date <$> activities (tracker s)) with
  | Raise e =>
      post (Crash (Uncaught e))
        (mk_dash (tracker s) (console s) (stdin s) (clock_reads s))
  | Ok ts =>
      length (activities (tracker s)) = length ts →
      let weekly_summary :=
        resample_W_sum (zip ts (aggregated <$> activities (tracker s))) in
      post (Done weekly_summary)
        (mk_dash
           (mk_tracker (assign_Date (activities (tracker s)) ts)
              (health_metrics (tracker s)))
           (console s ++
            [Printed SummaryHeader; Printed (SummaryTable weekly_summary);
             Printed (AverageDuration (np_mean (DurationMin <$> activities (tracker s))))])
           (stdin s) (clock_reads s))
  end →
  wp (call calculate_weekly_summary) post s.
Proof.
  intros Hpost. apply wp_call.
  pose proof (calculate_weekly_summary_cases (mk_world (tracker s) [])) as Hcases.
  cbn [self activities health_metrics stdout] in Hcases.
  destruct (to_datetime _) as [ts|e].
  - destruct Hcases as [Hlen ->]. cbn [fst snd self stdout]. by apply Hpost.
  - rewrite Hcases. cbn [fst snd self stdout fmap list_fmap].
    rewrite app_nil_r. by destruct (tracker s).
Qed.

End call_rules.

(** Walking through a program of the dashboard, branch by branch. *)
Ltac wp_branch :=
  first
    [ wp_step
    | apply wp_call_log_activity; cbv beta iota zeta;
      cbn [tracker console stdin clock_reads]
    | apply wp_call_log_health_metric; cbv beta iota zeta;
      cbn [tracker console stdin clock_reads]
    | apply wp_call_get_activity_data; cbv beta iota zeta;
      cbn [tracker console stdin clock_reads]
    | apply wp_call_get_health_data; cbv beta iota zeta;
      cbn [tracker console stdin clock_reads]
    | apply wp_input; cbn [tracker console stdin clock_reads];
      lazymatch goal with
      | |- match ?l with _ => _ end => destruct l as [|? ?]
      end; cbv beta iota zeta
    | lazymatch goal with
      | |- wp (if ?b then _ else _) _ _ => destruct b eqn:?
      | |- wp (match ?x with Some _ => _ | None => _ end) _ _ => destruct x eqn:?
      | |- match float_of ?e ?l with _ => _ end => destruct (float_of e l) eqn:?
      end ].

Section dashboard_data.
Import Calendar Pandas.











End dashboard_data.

Section dashboard_endings.
Import Calendar Pandas.

Lemma wf_readings_snoc (df : list reading) (d : date) (value : Q) :
  valid_date d = true → wf_readings df = true →
  wf_readings (df ++ [mk_reading (DateStr (strftime d)) value]) = true.
Proof.
  intros Hd Hdf. unfold wf_readings in *. rewrite forallb_app, Hdf.
  cbn [forallb ReadingDate]. rewrite (cell_day_strftime d Hd).
  by rewrite bool_decide_eq_true_2 by eauto.
Qed.

Lemma wf_readings_put_Date (df : list reading) (ts : list Z) :
  wf_readings (zip_with (λ r t, mk_reading (DateTs t) (Value r)) df ts) = true.
Proof.
  revert ts. induction df as [|r df IH]; intros [|t ts]; try done.
  cbn [zip_with wf_readings forallb ReadingDate]. apply andb_true_intro. split.
  - apply bool_decide_eq_true. by exists t.
  - apply IH.
Qed.

(** The line plot of the values of a non-empty frame of readings: the
    conversion of the dates raises and nothing else happens, or the plot is
    drawn and the dates are rewritten. *)
Lemma visualize_progress_cases (df : list reading) :
  df ≠ [] →
  match to_datetime (ReadingDate <$> df) with
  | Raise e => visualize_progress_over_time df "Value" = mk_drawn (Some e) [] df
  | Ok ts =>
      length df = length ts ∧
      visualize_progress_over_time df "Value" =
      mk_drawn None
        [LinePlot "Value" (DateTs <$> ts) ((λ r, CellNumber (Value r)) <$> df)]
        (zip_with (λ r t, mk_reading (DateTs t) (Value r)) df ts)
  end.
Proof.
  intros Hdf. destruct df as [|r df']; [done |].
  unfold visualize_progress_over_time.
  cbn [is_empty get_Date put_Date get_column reading_frame].
  destruct (to_datetime _) as [ts|e] eqn:Hts; [|done].
  apply to_datetime_length in Hts. rewrite length_fmap in Hts.
  split; [done |]. cbn [String.eqb Ascii.eqb Bool.eqb].
  by rewrite put_Date_dates, (put_Date_values CellNumber) by done.
Qed.

Lemma visualize_progress_readable (df : list reading) :
  df ≠ [] → wf_readings df = true →
  raised (visualize_progress_over_time df "Value") = None ∧
  wf_readings (frame_after (visualize_progress_over_time df "Value")) = true.
Proof.
  intros Hdf Hwf.
  pose proof (visualize_progress_cases df Hdf) as Hcases.
  destruct (to_datetime_wf_readings df Hwf) as (ts & Hts & _).
  rewrite Hts in Hcases. destruct Hcases as [_ ->].
  split; [done |]. apply wf_readings_put_Date.
Qed.

Lemma dates_readable_log_activity (t : FitnessTracker) (d : date)
    (activity_type : string) (duration_min calories distance_km : Q) :
  valid_date d = true → dates_readable t →
  dates_readable
    (mk_tracker
       (activities t ++
        [mk_activity (DateStr (strftime d)) activity_type duration_min calories
           distance_km])
       (health_metrics t)).
Proof.
  intros Hd [Hwf Hframes]. split; [|done].
  unfold wf in *. cbn [activities]. rewrite forallb_app, Hwf.
  cbn [forallb Date]. rewrite (cell_day_strftime d Hd).
  by rewrite bool_decide_eq_true_2 by eauto.
Qed.

Lemma dates_readable_log_health_metric (t : FitnessTracker) (d : date)
    (metric_name : string) (value : Q) :
  valid_date d = true → dates_readable t →
  dates_readable
    (mk_tracker
       (activities t)
       (<[metric_name :=
            default [] (health_metrics t !! metric_name) ++
            [mk_reading (DateStr (strftime d)) value]]>
          (health_metrics t))).
Proof.
  intros Hd [Hwf Hframes]. split; [done |].
  intros name df. cbn [health_metrics].
  destruct (decide (name = metric_name)) as [-> | Hne].
  - rewrite lookup_insert_eq. intros [= <-]. apply wf_readings_snoc; [done |].
    destruct (health_metrics t !! metric_name) as [df0|] eqn:Hdf0; [|done].
    by apply (Hframes metric_name).
  - rewrite lookup_insert_ne by done. apply Hframes.
Qed.

(** One round of the menu when the clock gives real dates and the stored
    dates are readable: the dates stay readable; the round goes on after
    reading at least one line, or it leaves the loop on the choice "6", or
    it ends with an exception that comes from what was typed. *)
Lemma menu_round (env : environment) (s : dash) :
  (∀ n, valid_date (date_today env n) = true) →
  dates_readable (tracker s) →
  wp (menu env)
    (λ o s',
       dates_readable (tracker s') ∧
       match o with
       | Done true => ∃ read, read ≠ [] ∧ stdin s = read ++ stdin s'
       | Done false => "6" ∈ stdin s
       | Crash c => from_typing env c
       end) s.
Proof.
  destruct s as [tr con inp clk]. cbn [tracker stdin].
  intros Hclock Hreadable. pose proof Hreadable as [Hwf Hframes].
  unfold menu. repeat wp_branch.
  (* the input ended, or a line was not a number *)
  all: try solve [split; [done | by left]].
  all: try solve [split; [done | right; eauto]].
  (* rounds that only read the choice *)
  all: try solve [split; [done | by exists [s]]].
  - (* 1 *)
    split; [by apply dates_readable_log_activity | by exists [s; s0; s1; s2]].
  - (* 2 *)
    split; [by apply dates_readable_log_health_metric | by exists [s; s0; s1]].
  - (* 3 *)
    apply wp_call_calculate_weekly_summary. cbn [tracker console stdin clock_reads].
    destruct (to_datetime_wf _ Hwf) as (ts & -> & _).
    intros Hlen. cbv zeta. wp_step.
    split; [|by exists [s]]. split; [apply wf_assign_Date | done].
  - (* 5: the plot cannot raise *)
    destruct (health_metrics tr !! "Weight_KG") as [wd|] eqn:Hwd;
      rewrite ?Hwd in *; [|done].
    cbn [default] in *. unfold id in *.
    destruct (visualize_progress_readable wd) as [Hraised _];
      [by destruct wd | by apply (Hframes "Weight_KG") |].
    congruence.
  - (* 5 *)
    destruct (health_metrics tr !! "Weight_KG") as [wd|] eqn:Hwd;
      rewrite ?Hwd in *; [|done].
    cbn [default] in *. unfold id in *.
    destruct (visualize_progress_readable wd) as [_ Hafter];
      [by destruct wd | by apply (Hframes "Weight_KG") |].
    split; [|by exists [s]]. split; [done |].
    intros name df. cbn [health_metrics].
    destruct (decide (name = "Weight_KG")) as [-> | Hne].
    + rewrite lookup_insert_eq. by intros [= <-].
    + rewrite lookup_insert_ne by done. apply Hframes.
  - (* 6 *)
    split; [done |]. apply String.eqb_eq in Heqb4 as ->. left.
Qed.

Lemma menu_loop_ends (env : environment) (rounds : nat) (s : dash) :
  (∀ n, valid_date (date_today env n) = true) →
  dates_readable (tracker s) →
  length (stdin s) < rounds →
  wp (menu_loop env rounds)
    (λ o _,
       match o with
       | Done (Some ()) => "6" ∈ stdin s
       | Done None => False
       | Crash c => from_typing env c
       end) s.
Proof.
  intros Hclock. revert s.
  induction rounds as [|rounds IH]; intros s Hreadable Hlen; [lia |].
  cbn [menu_loop]. apply wp_bind.
  eapply wp_mono; cycle 1; [by apply menu_round |].
  intros [[|]|c] s' [Hreadable' Hround]; [| by apply wp_ret | done].
  destruct Hround as (read & Hread & Hstdin).
  eapply wp_mono; cycle 1.
  - apply IH; [done |]. rewrite Hstdin, length_app in Hlen.
    destruct read; [done |]. simpl in Hlen. lia.
  - intros [[[]|]|c] _; try done.
    rewrite Hstdin. intros Hsix. apply elem_of_app. by right.
Qed.

Lemma startup_readable (env : environment) (lines : list string) :
  (∀ n, valid_date (date_today env n) = true) →
  wp (startup env)
    (λ o s', o = Done () ∧ dates_readable (tracker s') ∧ stdin s' = lines)
    (mk_dash init [] lines 0).
Proof.
  intros Hclock. unfold startup. repeat wp_branch.
  split; [done |]. split; [|done].
  do 2 (apply dates_readable_log_health_metric; [done |]).
  do 3 (apply dates_readable_log_activity; [done |]).
  split; [done |]. intros name df. unfold init. cbn [health_metrics].
  by rewrite lookup_empty.
Qed.

(** X12. How a run of the dashboard ends when the clock gives real dates:
    by the choice "6", which was then among the lines typed; or with
    [EOFError] because the input ran out; or with the [ValueError] of
    [float] on a line that is not a number.  The loop does not go on for
    ever on a finite input, and no exception of the tracker or of the
    plots escapes. *)
Theorem dashboard_endings (env : environment) (lines : list string) :
  (∀ n, valid_date (date_today env n) = true) →
  match (main_dashboard env lines).1 with
  | Done (Some ()) => "6" ∈ lines
  | Done None => False
  | Crash c => from_typing env c
  end.
Proof.
  intros Hclock. unfold main_dashboard.
  change (wp (startup env;; menu_loop env (S (length lines)))
            (λ o _, match o with
                    | Done (Some ()) => "6" ∈ lines
                    | Done None => False
                    | Crash c => from_typing env c
                    end)
            (mk_dash init [] lines 0)).
  apply wp_bind.
  eapply wp_mono; cycle 1; [by apply startup_readable |].
  intros o s' (-> & Hreadable & Hstdin).
  eapply wp_mono; cycle 1.
  - apply menu_loop_ends; [done | done |]. rewrite Hstdin. lia.
  - intros [[[]|]|c] _; try done. by rewrite Hstdin.
Qed.

Lemma dashboard_endings_witness :
  let lines := ["3"; "2"; "Weight_KG"; "74"; "5"; "abc"; "6"] in
  (∀ n, valid_date (date_today sample_env n) = true) ∧
  (main_dashboard sample_env lines).1 = Done (Some ()) ∧
  match (main_dashboard sample_env lines).1 with
  | Done (Some ()) => "6" ∈ lines
  | Done None => False
  | Crash c => from_typing sample_env c
  end.
Proof.
  split; [intros n; reflexivity |]. split; [vm_compute; reflexivity |].
  apply (dashboard_endings sample_env). intros n. reflexivity.
Defined.

End dashboard_endings.

Section dashboard_rounds.
Import Calendar Pandas.

(** X13. A round of the menu that ends in an exception has not changed the
    tracker: the lines are read and converted before anything is logged,
    and the summary and the plot raise before they assign. *)
Theorem menu_round_is_atomic (env : environment) (s : dash) :
  match (menu env s).1 with
  | Done _ => True
  | Crash _ => tracker (menu env s).2 = tracker s
  end.
Proof.
  change (wp (menu env)
            (λ o s', match o with
                     | Done _ => True
                     | Crash _ => tracker s' = tracker s
                     end) s).
  destruct s as [tr con inp clk]. cbn [tracker].
  unfold menu. repeat wp_branch.
  all: try done.
  - (* 3 *)
    apply wp_call_calculate_weekly_summary. cbn [tracker console stdin clock_reads].
    destruct (to_datetime _); [|done]. intros _. cbv zeta. by wp_step.
  - (* 5, when the plot raises *)
    destruct (health_metrics tr !! "Weight_KG") as [wd|] eqn:Hwd;
      rewrite ?Hwd in *; [|done].
    cbn [default] in *. unfold id in *.
    pose proof (visualize_progress_cases wd) as Hcases.
    destruct (to_datetime _) as [ts|e].
    + destruct Hcases as [_ Hplot]; [by destruct wd |].
      rewrite Hplot in *. done.
    + rewrite Hcases by (by destruct wd). cbn [frame_after].
      rewrite insert_id by done. by destruct tr.
Qed.

(** X14. Looking at the weight chart changes what is stored: the frame
    drawn is the one kept under "Weight_KG", so after the round its dates
    are timestamps (of the same days); the values, the other metrics and
    the activities are as they were, and the chart shows the stored values
    in order. *)
Theorem menu_weight_chart_rewrites_dates (env : environment) (s : dash)
    (rest : list string) (wd : list reading) :
  stdin s = "5" :: rest →
  health_metrics (tracker s) !! "Weight_KG" = Some wd →
  (0 < length wd)%nat →
  wf_readings wd = true →
  ∃ ts s',
    Forall2 (λ r t, cell_day (ReadingDate r) = Some t) wd ts ∧
    menu env s = (Done true, s') ∧
    health_metrics (tracker s') =
      <["Weight_KG" := zip_with (λ r t, mk_reading (DateTs t) (Value r)) wd ts]>
        (health_metrics (tracker s)) ∧
    activities (tracker s') = activities (tracker s) ∧
    last (console s') =
      Some (LinePlot "Value" (DateTs <$> ts) ((λ r, CellNumber (Value r)) <$> wd)) ∧
    stdin s' = rest.
Proof.
  intros Hstdin Hwd Hlen Hwf.
  destruct (to_datetime_wf_readings wd Hwf) as (ts & Hts & Hall).
  assert (Hne : wd ≠ []) by (intros ->; simpl in Hlen; lia).
  pose proof (visualize_progress_cases wd Hne) as Hplot.
  rewrite Hts in Hplot. destruct Hplot as [_ Hplot].
  exists ts, (menu env s).2. split; [exact Hall |].
  cut (wp (menu env)
         (λ o s',
            o = Done true ∧
            health_metrics (tracker s') =
              <["Weight_KG" := zip_with (λ r t, mk_reading (DateTs t) (Value r)) wd ts]>
                (health_metrics (tracker s)) ∧
            activities (tracker s') = activities (tracker s) ∧
            last (console s') =
              Some (LinePlot "Value" (DateTs <$> ts)
                      ((λ r, CellNumber (Value r)) <$> wd)) ∧
            stdin s' = rest) s).
  { unfold wp. intros (Ho & Hrest). split; [|exact Hrest].
    rewrite <- Ho. by destruct (menu env s). }
  destruct s as [tr con inp clk]. cbn [tracker stdin] in *. subst inp.
  unfold menu. repeat wp_step.
  apply wp_input. cbn [tracker console stdin clock_reads]. cbv beta iota.
  cbn [String.eqb Ascii.eqb Bool.eqb].
  wp_step. apply wp_call_get_health_data. cbv beta iota zeta.
  cbn [tracker console stdin clock_reads].
  rewrite Hwd. cbn [default]. unfold id. rewrite Hplot.
  replace (is_empty wd) with false by (by destruct wd).
  cbn [negb raised shown frame_after]. repeat wp_step.
  by rewrite last_snoc.
Qed.

Lemma menu_weight_chart_rewrites_dates_witness :
  let s := mk_dash (self sample_world) [] ["5"; "6"] 5 in
  let wd := [mk_reading (DateStr "2026-11-03") 75.2;
             mk_reading (DateStr "2026-11-03") 74.8] in
  stdin s = "5" :: ["6"] ∧
  health_metrics (tracker s) !! "Weight_KG" = Some wd ∧
  (0 < length wd)%nat ∧
  wf_readings wd = true ∧
  ∃ ts s',
    menu sample_env s = (Done true, s') ∧
    health_metrics (tracker s') =
      <["Weight_KG" := zip_with (λ r t, mk_reading (DateTs t) (Value r)) wd ts]>
        (health_metrics (tracker s)).
Proof.
  split; [reflexivity |]. split; [reflexivity |]. split; [simpl; lia |].
  split; [reflexivity |].
  destruct (menu_weight_chart_rewrites_dates sample_env
              (mk_dash (self sample_world) [] ["5"; "6"] 5) ["6"]
              [mk_reading (DateStr "2026-11-03") 75.2;
               mk_reading (DateStr "2026-11-03") 74.8])
    as (ts & s' & _ & Hrun & Hstored & _);
    [reflexivity | reflexivity | simpl; lia | reflexivity |].
  exists ts, s'. split; [exact Hrun | exact Hstored].
Defined.

End dashboard_rounds.

Section dashboard_termination.

Lemma menu_reads_a_line (env : environment) (s : dash) :
  wp (menu env)
    (λ o s',
       match o with
       | Done true => ∃ read, read ≠ [] ∧ stdin s = read ++ stdin s'
       | _ => True
       end) s.
Proof.
  destruct s as [tr con inp clk]. cbn [stdin].
  unfold menu. repeat wp_branch.
  all: try done.
  all: try solve [by exists [s]].
  - by exists [s; s0; s1; s2].
  - by exists [s; s0; s1].
  - apply wp_call_calculate_weekly_summary. cbn [tracker console stdin clock_reads].
    destruct (Pandas.to_datetime _); [|done]. intros _. cbv zeta. wp_step.
    by exists [s].
Qed.

Lemma menu_loop_runs_out_never (env : environment) (rounds : nat) (s : dash) :
  length (stdin s) < rounds →
  wp (menu_loop env rounds)
    (λ o _, match o with Done None => False | _ => True end) s.
Proof.
  revert s. induction rounds as [|rounds IH]; intros s Hlen; [lia |].
  cbn [menu_loop]. apply wp_bind.
  eapply wp_mono; cycle 1; [apply menu_reads_a_line |].
  intros [[|]|c] s' Hround; [| by apply wp_ret | done].
  destruct Hround as (read & Hread & Hstdin).
  apply IH. rewrite Hstdin, length_app in Hlen.
  destruct read; [done |]. simpl in Hlen. lia.
Qed.

(** X15. Every round of the menu that goes on has read at least one of the
    lines typed, so on a finite input the loop cannot go round for ever:
    one round more than there are lines is never used up, whatever the
    clock and [float] do. *)
Theorem dashboard_loop_ends (env : environment) (lines : list string) :
  match (main_dashboard env lines).1 with
  | Done None => False
  | _ => True
  end.
Proof.
  unfold main_dashboard.
  change (wp (startup env;; menu_loop env (S (length lines)))
            (λ o _, match o with Done None => False | _ => True end)
            (mk_dash init [] lines 0)).
  apply wp_bind.
  assert (Hstart : wp (startup env) (λ _ s', stdin s' = lines) (mk_dash init [] lines 0))
    by (unfold startup; by repeat wp_branch).
  eapply wp_mono; cycle 1; [exact Hstart |].
  intros [[]|c] s' Hstdin; [|done].
  apply menu_loop_runs_out_never. rewrite Hstdin. lia.
Qed.

End dashboard_termination.
